(** * csv2XLsheet: a model of [main] and its properties

    The program reads a delimited text file record by record, strips the
    quotation marks of every field, and appends the records after the last
    row of a sheet of an existing workbook.  Lines the reader cannot parse
    and records wider than the sheet are written to a log that is created
    the first time one of them is met.

    Go strings are byte sequences: they are [string] here (a list of
    8-bit [ascii]).  A [rune] and an [int] are [Z].  An [int] has 64 bits:
    the arithmetic on the start line, on the line number and on the count
    of errors, which the size of a slice does not bound, wraps; the length
    of a slice and what is computed from it ([len(rows)+1], [j+1],
    [nextRow+i], the count of rejected records) stays far below 2^63 and
    is plain arithmetic.

    The operating system, [encoding/csv] and [excelize] are an
    environment the run is given.  The reader of the source is the finite
    list of the results of [reader.Read] up to [io.EOF]; a reader that
    never reaches [io.EOF] is outside this model.  The packages [strings],
    [filepath] and [utf8] are modelled after the Go standard library. *)

From Stdlib Require Import ZArith List String Ascii Bool Lia DecimalString.
Import ListNotations.

Local Open Scope string_scope.
Local Open Scope Z_scope.

(** ** Go strings *)

Module GoString.

Definition bytes (s : string) : list Z :=
  map (fun c => Z.of_N (N_of_ascii c)) (list_ascii_of_string s).

Definition of_bytes (p : list Z) : string :=
  string_of_list_ascii (map (fun b => ascii_of_N (Z.to_N b)) p).

Definition len (s : string) : nat := String.length s.

(** [strings.HasSuffix(s, suffix)] *)
Definition HasSuffix (s suffix : string) : bool :=
  (len suffix <=? len s)%nat &&
  String.eqb (substring (len s - len suffix) (len suffix) s) suffix.

(** [strings.TrimSuffix(s, suffix)] *)
Definition TrimSuffix (s suffix : string) : string :=
  if HasSuffix s suffix then substring 0 (len s - len suffix) s else s.

(** [strings.Join(elems, sep)] *)
Fixpoint Join (elems : list string) (sep : string) : string :=
  match elems with
  | [] => ""
  | [e] => e
  | e :: rest => e ++ sep ++ Join rest sep
  end.

(** [strings.HasPrefix(s, prefix)] *)
Definition HasPrefix (s prefix : string) : bool := String.prefix prefix s.

(** [strings.ReplaceAll(s, old, new)] for a non-empty [old]: scanning from
    the left, every occurrence of [old] that does not overlap the one
    before is replaced.  [skip] counts the bytes of the occurrence that is
    being stepped over. *)
Fixpoint replace_from (old new : string) (skip : nat) (s : string) : string :=
  match s with
  | EmptyString => EmptyString
  | String c s' =>
      match skip with
      | S k => replace_from old new k s'
      | O =>
          if HasPrefix s old
          then new ++ replace_from old new (len old - 1) s'
          else String c (replace_from old new 0 s')
      end
  end.

Definition ReplaceAll (s old new : string) : string := replace_from old new 0 s.

(** [filepath.Ext(path)] with [/] as the path separator: the loop runs from
    the last byte down to the first separator and returns the suffix that
    starts at the first dot it meets. *)
Fixpoint ext_scan (rv acc : list ascii) : list ascii :=
  match rv with
  | [] => []
  | c :: rest =>
      if Ascii.eqb c "/" then []
      else if Ascii.eqb c "." then c :: acc
      else ext_scan rest (c :: acc)
  end.

Definition Ext (path : string) : string :=
  string_of_list_ascii (ext_scan (rev (list_ascii_of_string path)) []).

End GoString.

(** ** Package unicode/utf8 *)

Module utf8.

Definition RuneError : Z := 0xFFFD.
Definition MaxRune : Z := 0x10FFFF.

Definition in_range (lo hi b : Z) : bool := (lo <=? b) && (b <=? hi).

(** Continuation byte. *)
Definition cont (b : Z) : bool := in_range 0x80 0xBF b.

(** [utf8.DecodeRune]: the first rune of [p] and its width in bytes.  A
    byte sequence that is not a well-formed encoding yields
    [(RuneError, 1)], the empty one [(RuneError, 0)]. *)
Definition DecodeRune (p : list Z) : Z * nat :=
  match p with
  | [] => (RuneError, 0%nat)
  | b0 :: t =>
      if b0 <? 0x80 then (b0, 1%nat)
      else if in_range 0xC2 0xDF b0 then
        match t with
        | b1 :: _ =>
            if cont b1
            then (Z.lor (Z.shiftl (Z.land b0 0x1F) 6) (Z.land b1 0x3F), 2%nat)
            else (RuneError, 1%nat)
        | _ => (RuneError, 1%nat)
        end
      else if in_range 0xE0 0xEF b0 then
        let lo := if b0 =? 0xE0 then 0xA0 else 0x80 in
        let hi := if b0 =? 0xED then 0x9F else 0xBF in
        match t with
        | b1 :: b2 :: _ =>
            if in_range lo hi b1 && cont b2
            then (Z.lor (Z.lor (Z.shiftl (Z.land b0 0x0F) 12)
                               (Z.shiftl (Z.land b1 0x3F) 6))
                        (Z.land b2 0x3F), 3%nat)
            else (RuneError, 1%nat)
        | _ => (RuneError, 1%nat)
        end
      else if in_range 0xF0 0xF4 b0 then
        let lo := if b0 =? 0xF0 then 0x90 else 0x80 in
        let hi := if b0 =? 0xF4 then 0x8F else 0xBF in
        match t with
        | b1 :: b2 :: b3 :: _ =>
            if in_range lo hi b1 && cont b2 && cont b3
            then (Z.lor (Z.lor (Z.lor (Z.shiftl (Z.land b0 0x07) 18)
                                      (Z.shiftl (Z.land b1 0x3F) 12))
                               (Z.shiftl (Z.land b2 0x3F) 6))
                        (Z.land b3 0x3F), 4%nat)
            else (RuneError, 1%nat)
        | _ => (RuneError, 1%nat)
        end
      else (RuneError, 1%nat)
  end.

Definition DecodeRuneInString (s : string) : Z * nat :=
  DecodeRune (GoString.bytes s).

(** [utf8.RuneCount]: the number of runes; every byte that does not start
    a well-formed encoding counts as one rune of width 1. *)
Fixpoint rune_count_from (skip : nat) (p : list Z) : Z :=
  match p with
  | [] => 0
  | _ :: t =>
      match skip with
      | S k => rune_count_from k t
      | O => 1 + rune_count_from (snd (DecodeRune p) - 1) t
      end
  end.

Definition RuneCount (p : list Z) : Z := rune_count_from 0 p.

Definition RuneCountInString (s : string) : Z := RuneCount (GoString.bytes s).

(** A Unicode scalar value: a code point that is not a surrogate. *)
Definition ValidRune (r : Z) : bool :=
  in_range 0 0xD7FF r || in_range 0xE000 MaxRune r.

(** The UTF-8 encoding of a code point, as the standard defines it. *)
Definition encode (r : Z) : list Z :=
  if r <? 0x80 then [r]
  else if r <? 0x800 then [0xC0 + r / 64; 0x80 + r mod 64]
  else if r <? 0x10000 then
    [0xE0 + r / 4096; 0x80 + (r / 64) mod 64; 0x80 + r mod 64]
  else
    [0xF0 + r / 262144; 0x80 + (r / 4096) mod 64;
     0x80 + (r / 64) mod 64; 0x80 + r mod 64].

(** The conversion [string(r)] of a rune: its encoding, and that of
    [RuneError] for a value that is not a scalar value. *)
Definition string_of_rune (r : Z) : string :=
  GoString.of_bytes (encode (if ValidRune r then r else RuneError)).

End utf8.

(** ** The program *)

Module csv2XLsheet.

Import GoString.

Definition nl : string := String (ascii_of_nat 10) "".
Definition tab : string := String (ascii_of_nat 9) "".

(** [int] arithmetic: two's complement on 64 bits. *)
Definition int_wrap (z : Z) : Z := (z + 2 ^ 63) mod 2 ^ 64 - 2 ^ 63.

(** The verb [%d]. *)
Definition itoa (z : Z) : string := DecimalString.NilZero.string_of_int (Z.to_int z).

(** *** The collaborators

    What [csv.Reader.Read] returns before [io.EOF]: a record, or an error
    together with the fields recovered from the line.  The reader of a
    source is the list of these results, in order. *)
Inductive ReadResult : Type :=
  | ReadOk (record : list string)
  | ReadErr (record : list string).

(** The workbook that [excelize.OpenFile] returns. *)
Record ExcelFile : Type := {
  GetSheetList : list string;
  GetSheetIndex : string -> string + Z;
  GetRows : string -> string + list (list string);
  SaveAs : string -> option string
}.

(** The operating system and the libraries; [inl] and [Some] carry the text
    of an error. *)
Record Env : Type := {
  os_Args : list string;
  os_Open : string -> string + (Z -> list ReadResult);
  os_Create : string -> option string;
  excelize_OpenFile : string -> string + ExcelFile
}.

(** The flags after [flag.Parse]. *)
Record Flags : Type := {
  sourceFile : string;
  templateFile : string;
  sheetName : string;
  delimiter : string;
  outputFile : string;
  startRow : Z
}.

(** A call [f.SetCellValue(sheet, cell, value)] where [cell] is what
    [excelize.CoordinatesToCellName] returns for [(col, row)]; the errors
    of both calls are discarded by [main], and whether [excelize] accepts
    the coordinates is its own matter.  The record keeps the
    coordinates. *)
Record CellWrite : Type := {
  cw_sheet : string;
  cw_col : Z;
  cw_row : Z;
  cw_value : string
}.

(** *** The state of a run

    The variables of [main] that outlive a loop, and what the run has done
    to the outside: [logFile] is [None] until [os.Create] has succeeded and
    then holds the path of the log and the strings written to it, [cells]
    the cell writes in order, [saved] the path of the workbook once
    saved. *)
Record Run : Type := {
  hasErrors : bool;
  logFile : option (string * list string);
  errorCount : Z;
  notAppendedCount : Z;
  active : option Z;
  cells : list CellWrite;
  saved : option string;
  stdout : list string
}.

Definition start : Run :=
  {| hasErrors := false; logFile := None; errorCount := 0;
     notAppendedCount := 0; active := None; cells := []; saved := None;
     stdout := [] |}.

(** How a computation ends: normally, by [log.Fatal] with its message, or
    by [os.Exit]. *)
Inductive Result (A : Type) : Type :=
  | Ok (a : A)
  | Fatal (msg : string)
  | Exit (code : Z).
Arguments Ok {A} a.
Arguments Fatal {A} msg.
Arguments Exit {A} code.

Definition M (A : Type) : Type := Run -> Result A * Run.

Definition ret {A} (a : A) : M A := fun st => (Ok a, st).

Definition bind {A B} (m : M A) (k : A -> M B) : M B :=
  fun st =>
    match m st with
    | (Ok a, st') => k a st'
    | (Fatal msg, st') => (Fatal msg, st')
    | (Exit c, st') => (Exit c, st')
    end.

Notation "x <- m ;; k" := (bind m (fun x => k))
  (at level 61, m at next level, right associativity).
Notation "m ;; k" := (bind m (fun _ => k))
  (at level 61, right associativity).

Definition fatal {A} (msg : string) : M A := fun st => (Fatal msg, st).
Definition exit {A} (code : Z) : M A := fun st => (Exit code, st).

Definition modify (f : Run -> Run) : M unit := fun st => (Ok tt, f st).
Definition get {A} (f : Run -> A) : M A := fun st => (Ok (f st), st).

Definition set_hasErrors (b : bool) (st : Run) : Run :=
  {| hasErrors := b; logFile := logFile st; errorCount := errorCount st;
     notAppendedCount := notAppendedCount st; active := active st;
     cells := cells st; saved := saved st; stdout := stdout st |}.

Definition set_logFile (l : option (string * list string)) (st : Run) : Run :=
  {| hasErrors := hasErrors st; logFile := l; errorCount := errorCount st;
     notAppendedCount := notAppendedCount st; active := active st;
     cells := cells st; saved := saved st; stdout := stdout st |}.

Definition set_errorCount (n : Z) (st : Run) : Run :=
  {| hasErrors := hasErrors st; logFile := logFile st; errorCount := n;
     notAppendedCount := notAppendedCount st; active := active st;
     cells := cells st; saved := saved st; stdout := stdout st |}.

Definition set_notAppendedCount (n : Z) (st : Run) : Run :=
  {| hasErrors := hasErrors st; logFile := logFile st;
     errorCount := errorCount st; notAppendedCount := n; active := active st;
     cells := cells st; saved := saved st; stdout := stdout st |}.

Definition set_active (a : option Z) (st : Run) : Run :=
  {| hasErrors := hasErrors st; logFile := logFile st;
     errorCount := errorCount st; notAppendedCount := notAppendedCount st;
     active := a; cells := cells st; saved := saved st; stdout := stdout st |}.

Definition set_cells (c : list CellWrite) (st : Run) : Run :=
  {| hasErrors := hasErrors st; logFile := logFile st;
     errorCount := errorCount st; notAppendedCount := notAppendedCount st;
     active := active st; cells := c; saved := saved st; stdout := stdout st |}.

Definition set_saved (p : option string) (st : Run) : Run :=
  {| hasErrors := hasErrors st; logFile := logFile st;
     errorCount := errorCount st; notAppendedCount := notAppendedCount st;
     active := active st; cells := cells st; saved := p; stdout := stdout st |}.

Definition set_stdout (o : list string) (st : Run) : Run :=
  {| hasErrors := hasErrors st; logFile := logFile st;
     errorCount := errorCount st; notAppendedCount := notAppendedCount st;
     active := active st; cells := cells st; saved := saved st; stdout := o |}.

(** [fmt.Print]: one more string on the standard output. *)
Definition print (s : string) : M unit :=
  modify (fun st => set_stdout (stdout st ++ [s])%list st).

(** [logFile.WriteString(s)]; the result of the call is discarded. *)
Definition WriteString (s : string) : M unit :=
  modify (fun st =>
    match logFile st with
    | Some (path, written) => set_logFile (Some (path, written ++ [s])%list) st
    | None => st
    end).

(** *** [main] *)

Definition quote : string := String (ascii_of_nat 34) "".

(** [flag.Usage] *)
Definition Usage (env : Env) : M unit :=
  print ("Appends data from CSV/TSV files onto an existing Excel (XLSX,XLTX) sheet."
         ++ nl ++ "Works with tables, pivot tables and slicers."
         ++ nl ++ "Line input errors are ignored and logged."
         ++ nl ++ "Quotation marks are removed during processing." ++ nl) ;;
  print (nl ++ "Usage: " ++ hd "" (os_Args env) ++ " [-i,-t,-s,-o,-d,-r,-h]"
         ++ nl ++ nl) ;;
  print (nl ++ "Options:" ++ nl) ;;
  print ("  -i  Input Path to the source CSV/TSV file (required)" ++ nl) ;;
  print ("  -t  Path to the Excel XLSX/XLTX file (required)" ++ nl) ;;
  print ("  -s  Existing sheet name to append lines (required)" ++ nl) ;;
  print ("  -o  Output file name (required)" ++ nl) ;;
  print ("  -d  Delimiter of input file (options: 'csv', 'tab', or character(s)) (default: 'csv')"
         ++ nl) ;;
  print ("  -r  Start appending sheet from this line number (default: 1)" ++ nl) ;;
  print ("  -h  Show this help message" ++ nl) ;;
  print (nl ++ " Example: Appends CSV file prc.csv to a sheet named Pf-Table"
         ++ nl ++ " in an excel template named PfSlicer.xltx starting at line 2"
         ++ nl ++ " and outputs a file named pfoutput.xlsx " ++ nl ++ nl ++ tab
         ++ "csv2XLsheet -i prc.csv -t PfSlicer.xltx -s Pf-Table -r 2 -o pfoutput.xlsx"
         ++ nl ++ nl).

(** The [switch] on the delimiter flag. *)
Definition resolve_delimiter (token : string) : M Z :=
  if String.eqb token "csv" then ret 44
  else if String.eqb token "tab" then ret 9
  else if utf8.RuneCountInString token =? 1
       then ret (fst (utf8.DecodeRuneInString token))
       else fatal ("Invalid delimiter: " ++ token).

Definition logFileName (outputFileName : string) : string :=
  TrimSuffix outputFileName (Ext outputFileName) ++ "-errors.log".

(** Open the error log if it is not already open. *)
Definition open_log (env : Env) (name : string) : M unit :=
  fun st =>
    if hasErrors st then (Ok tt, st)
    else
      let st := set_hasErrors true st in
      match os_Create env name with
      | Some err => (Fatal ("Failed to create error log file: " ++ err), st)
      | None => (Ok tt, set_logFile (Some (name, [])) st)
      end.

(** Removing the quotation marks of a field, and of each field of a
    record. *)
Definition sanitize (field : string) : string := ReplaceAll field quote "".

Definition sanitize_record (record : list string) : list string :=
  map sanitize record.

(** The variables of the reading loop. *)
Record Ingest : Type := {
  lineNumber : Z;
  csvData : list (list string)
}.

(** The reading loop, one iteration per result of [reader.Read], ended by
    [io.EOF] at the end of the list. *)
Fixpoint read_loop (env : Env) (logName : string) (delim startRow : Z)
    (reader : list ReadResult) (v : Ingest) : M Ingest :=
  match reader with
  | [] => ret v
  | ReadErr record :: rest =>
      open_log env logName ;;
      let rawLine := Join record (utf8.string_of_rune delim) in
      WriteString ("Error reading line: " ++ rawLine ++ nl) ;;
      modify (fun st => set_errorCount (int_wrap (errorCount st + 1)) st) ;;
      read_loop env logName delim startRow rest v
  | ReadOk record :: rest =>
      let data :=
        if int_wrap (startRow - 1) <=? lineNumber v
        then (csvData v ++ [sanitize_record record])%list
        else csvData v in
      read_loop env logName delim startRow rest
        {| lineNumber := int_wrap (lineNumber v + 1); csvData := data |}
  end.

(** The inner loop of the appending loop: field [j] of the record goes to
    column [j+1] of row [nextRow+i]. *)
Fixpoint row_cells (sheet : string) (nextRow i j : Z) (row : list string)
    : list CellWrite :=
  match row with
  | [] => []
  | value :: rest =>
      {| cw_sheet := sheet; cw_col := j + 1; cw_row := nextRow + i;
         cw_value := value |} :: row_cells sheet nextRow i (j + 1) rest
  end.

(** The appending loop over [csvData], from index [i] on. *)
Fixpoint append_loop (env : Env) (logName sheet : string)
    (delim maxCols nextRow i : Z) (data : list (list string)) : M unit :=
  match data with
  | [] => ret tt
  | row :: rest =>
      let numFields := Z.of_nat (List.length row) in
      if numFields >? maxCols then
        open_log env logName ;;
        let rawLine := Join row (utf8.string_of_rune delim) in
        WriteString ("Not appended (too many fields): " ++ rawLine ++ nl) ;;
        modify (fun st => set_notAppendedCount (notAppendedCount st + 1) st) ;;
        append_loop env logName sheet delim maxCols nextRow (i + 1) rest
      else
        modify (fun st =>
          set_cells (cells st ++ row_cells sheet nextRow i 0 row)%list st) ;;
        append_loop env logName sheet delim maxCols nextRow (i + 1) rest
  end.

(** The width the sheet accepts and the first free row. *)
Definition maxCols_of (rows : list (list string)) : Z :=
  match rows with
  | first :: _ => Z.of_nat (List.length first)
  | [] => 16384
  end.

Definition nextRow_of (rows : list (list string)) : Z :=
  Z.of_nat (List.length rows) + 1.

Definition main (env : Env) (fl : Flags) : M unit :=
  if (List.length (os_Args env) =? 1)%nat then Usage env ;; exit 0
  else if String.eqb (sourceFile fl) "" || String.eqb (templateFile fl) ""
          || String.eqb (outputFile fl) "" || String.eqb (sheetName fl) ""
  then
    Usage env ;;
    fatal (nl ++ "Flags -i (input file), -t (Excel template), -s (Sheet name), and -o (Output file) must be specified")
  else
    let csvFile := sourceFile fl in
    let excelTemplate := templateFile fl in
    let targetSheetName := sheetName fl in
    let outputFileName := outputFile fl in
    delim <- resolve_delimiter (delimiter fl) ;;
    let logName := logFileName outputFileName in
    match os_Open env csvFile with
    | inl err => fatal ("Failed to open input file: " ++ err)
    | inr file =>
        v <- read_loop env logName delim (startRow fl) (file delim)
               {| lineNumber := 0; csvData := [] |} ;;
        match excelize_OpenFile env excelTemplate with
        | inl err => fatal ("Failed to open Excel template: " ++ err)
        | inr f =>
            if negb (existsb (fun name => String.eqb name targetSheetName)
                             (GetSheetList f))
            then fatal ("Sheet '" ++ targetSheetName
                        ++ "' does not exist in the template file!")
            else
              match GetSheetIndex f targetSheetName with
              | inl err => fatal ("Failed to get sheet index: " ++ err)
              | inr sheetIndex =>
                  modify (set_active (Some sheetIndex)) ;;
                  match GetRows f targetSheetName with
                  | inl err => fatal ("Failed to get rows from sheet: " ++ err)
                  | inr rows =>
                      let maxCols := maxCols_of rows in
                      let nextRow := nextRow_of rows in
                      append_loop env logName targetSheetName delim maxCols
                        nextRow 0 (csvData v) ;;
                      match SaveAs f outputFileName with
                      | Some err =>
                          fatal ("Failed to save updated Excel file: " ++ err)
                      | None =>
                          modify (set_saved (Some outputFileName)) ;;
                          print ("Data successfully written to file "
                                 ++ outputFileName ++ ", sheet "
                                 ++ targetSheetName ++ nl) ;;
                          hasErr <- get hasErrors ;;
                          if (hasErr : bool) then
                            n <- get (fun st => int_wrap (errorCount st
                                                   + notAppendedCount st)) ;;
                            print (itoa n
                                   ++ " lines encountered errors. See the log at "
                                   ++ logName ++ nl)
                          else ret tt
                      end
                  end
              end
        end
    end.

End csv2XLsheet.

(** ** Notions the properties are stated with *)

Module Notions.

Import GoString csv2XLsheet.

Definition is_quote (c : ascii) : bool := Ascii.eqb c (ascii_of_nat 34).

(** The records the reader parsed and the ones it failed on, in order. *)
Fixpoint parsed (reader : list ReadResult) : list (list string) :=
  match reader with
  | [] => []
  | ReadOk record :: rest => record :: parsed rest
  | ReadErr _ :: rest => parsed rest
  end.

Fixpoint failed (reader : list ReadResult) : list (list string) :=
  match reader with
  | [] => []
  | ReadOk _ :: rest => failed rest
  | ReadErr record :: rest => record :: failed rest
  end.

(** The two kinds of log entries. *)
Definition error_line (delim : Z) (record : list string) : string :=
  "Error reading line: " ++ Join record (utf8.string_of_rune delim) ++ nl.

Definition rejected_line (delim : Z) (row : list string) : string :=
  "Not appended (too many fields): "
  ++ Join row (utf8.string_of_rune delim) ++ nl.

(** The accepted records for a start line: the parsed records from the
    start line on, sanitized. *)
Definition accepted (startRow : Z) (reader : list ReadResult)
    : list (list string) :=
  map sanitize_record
      (skipn (Z.to_nat (int_wrap (startRow - 1))) (parsed reader)).

Definition oversized (maxCols : Z) (row : list string) : bool :=
  maxCols <? Z.of_nat (List.length row).

Definition enumerate {A : Type} (l : list A) : list (nat * A) :=
  combine (seq 0 (List.length l)) l.

(** The cell writes of one record on sheet row [r]: field [j] in column
    [j+1]. *)
Definition cell_at (sheet : string) (r : Z) (jv : nat * string) : CellWrite :=
  {| cw_sheet := sheet; cw_col := Z.of_nat (fst jv) + 1; cw_row := r;
     cw_value := snd jv |}.

Definition cells_of_record (sheet : string) (r : Z) (row : list string)
    : list CellWrite :=
  map (cell_at sheet r) (enumerate row).

(** The cell writes of a sequence of records: record [i] on sheet row
    [nextRow+i] when it fits, nothing when it does not. *)
Definition place_one (sheet : string) (maxCols nextRow : Z)
    (ir : nat * list string) : list CellWrite :=
  if oversized maxCols (snd ir) then []
  else cells_of_record sheet (nextRow + Z.of_nat (fst ir)) (snd ir).

Definition placed (sheet : string) (maxCols nextRow : Z)
    (data : list (list string)) : list CellWrite :=
  flat_map (place_one sheet maxCols nextRow) (enumerate data).

(** The log after [lines] were written from state [st], when the log could
    be created under [name]. *)
Definition logged (st : Run) (name : string) (lines : list string)
    : option (string * list string) :=
  match lines with
  | [] => logFile st
  | _ =>
      match (if hasErrors st then logFile st else Some (name, [])) with
      | Some (path, written) => Some (path, (written ++ lines)%list)
      | None => None
      end
  end.

Definition nonempty {A : Type} (l : list A) : bool :=
  match l with [] => false | _ => true end.

(** The log can be written to from [st] on: it is open already, or it can
    be created. *)
Definition loggable (env : Env) (name : string) (st : Run) : Prop :=
  hasErrors st = true \/ os_Create env name = None.

(** The state after the reading loop has run over [reader] from [st]. *)
Definition after_read (name : string) (delim : Z) (reader : list ReadResult)
    (st : Run) : Run :=
  {| hasErrors := hasErrors st || nonempty (failed reader);
     logFile := logged st name (map (error_line delim) (failed reader));
     errorCount := errorCount st + Z.of_nat (List.length (failed reader));
     notAppendedCount := notAppendedCount st; active := active st;
     cells := cells st; saved := saved st; stdout := stdout st |}.

(** The state after the appending loop has run over [data], whose first
    record has index [k], from [st]. *)
Definition after_append (name sheet : string) (delim maxCols nextRow : Z)
    (k : nat) (data : list (list string)) (st : Run) : Run :=
  let rejected := filter (oversized maxCols) data in
  {| hasErrors := hasErrors st || nonempty rejected;
     logFile := logged st name (map (rejected_line delim) rejected);
     errorCount := errorCount st;
     notAppendedCount := notAppendedCount st + Z.of_nat (List.length rejected);
     active := active st;
     cells := (cells st ++
               flat_map (place_one sheet maxCols nextRow)
                        (combine (seq k (List.length data)) data))%list;
     saved := saved st; stdout := stdout st |}.

(** The strings written to the log so far. *)
Definition log_lines (st : Run) : list string :=
  match logFile st with
  | Some (_, written) => written
  | None => []
  end.


(** The variables of the reading loop when it starts. *)
Definition fresh : Ingest := {| lineNumber := 0; csvData := [] |}.

(** The parsed records that lie before the start line. *)
Definition skipped (startRow : Z) (reader : list ReadResult)
    : list (list string) :=
  firstn (Z.to_nat (int_wrap (startRow - 1))) (parsed reader).

(** The separator the delimiter flag stands for, if any. *)
Definition delimiter_of (token : string) : option Z :=
  match resolve_delimiter token start with
  | (Ok delim, _) => Some delim
  | _ => None
  end.

(** How far a run gets: it ends before the source is read; or it reads the
    source with a separator and ends before the appending loop; or it also
    runs the appending loop on the rows of the target sheet. *)
Inductive Stage : Type :=
  | NotRead
  | ReadOnly (delim : Z) (reader : list ReadResult)
  | Appended (delim : Z) (reader : list ReadResult)
             (rows : list (list string)).

Definition stage (env : Env) (fl : Flags) : Stage :=
  if (List.length (os_Args env) =? 1)%nat then NotRead
  else if String.eqb (sourceFile fl) "" || String.eqb (templateFile fl) ""
          || String.eqb (outputFile fl) "" || String.eqb (sheetName fl) ""
  then NotRead
  else
    match delimiter_of (delimiter fl) with
    | None => NotRead
    | Some delim =>
        match os_Open env (sourceFile fl) with
        | inl _ => NotRead
        | inr file =>
            match excelize_OpenFile env (templateFile fl) with
            | inl _ => ReadOnly delim (file delim)
            | inr f =>
                if negb (existsb (fun name => String.eqb name (sheetName fl))
                                 (GetSheetList f))
                then ReadOnly delim (file delim)
                else
                  match GetSheetIndex f (sheetName fl),
                        GetRows f (sheetName fl) with
                  | inr _, inr rows => Appended delim (file delim) rows
                  | _, _ => ReadOnly delim (file delim)
                  end
            end
        end
    end.

(** The failures a run meets, as the entries they leave in the log: the
    unparseable lines while reading, then the records that are too wide
    while appending. *)
Definition failures (startRow : Z) (s : Stage) : list string :=
  match s with
  | NotRead => []
  | ReadOnly delim reader => map (error_line delim) (failed reader)
  | Appended delim reader rows =>
      (map (error_line delim) (failed reader) ++
       map (rejected_line delim)
           (filter (oversized (maxCols_of rows)) (accepted startRow reader)))%list
  end.

(** The cell writes of a run. *)
Definition placements (sheet : string) (startRow : Z) (s : Stage)
    : list CellWrite :=
  match s with
  | Appended _ reader rows =>
      placed sheet (maxCols_of rows) (nextRow_of rows)
             (accepted startRow reader)
  | _ => []
  end.

(** An environment in which every call succeeds: the reader yields
    [reader] and the workbook has the sheets [Data] and [Notes], both with
    the rows [rows]. *)
Definition calm (reader : list ReadResult) (rows : list (list string)) : Env :=
  {| os_Args := ["csv2XLsheet"; "-i"; "in.csv"];
     os_Open := fun _ => inr (fun _ => reader);
     os_Create := fun _ => None;
     excelize_OpenFile := fun _ =>
       inr {| GetSheetList := ["Data"; "Notes"];
              GetSheetIndex := fun _ => inr 0;
              GetRows := fun _ => inr rows;
              SaveAs := fun _ => None |} |}.

Definition flags_for (sheet delim : string) (startRow : Z) : Flags :=
  {| sourceFile := "in.csv"; templateFile := "book.xlsx"; sheetName := sheet;
     delimiter := delim; outputFile := "out.xlsx"; startRow := startRow |}.

(** The results [reader.Read] can return before [io.EOF] as [main] sets
    the reader up, with [LazyQuotes] and [FieldsPerRecord] left at 0: the
    first result is a record, and of the later lines those with as many
    fields as the first are records and the others are errors that carry
    their fields. *)
Definition returnable (reader : list ReadResult) : bool :=
  match reader with
  | [] => true
  | ReadErr _ :: _ => false
  | ReadOk first :: rest =>
      forallb (fun result =>
                 match result with
                 | ReadOk record =>
                     (List.length record =? List.length first)%nat
                 | ReadErr record =>
                     negb (List.length record =? List.length first)%nat
                 end) rest
  end.

(** The source of the four lines [a,b], [x], [c,d] and [e,f]: the second
    has one field where the first has two, and is an error.  A sheet of
    two columns that has two rows, and a sheet of one column. *)
Definition four_lines : list ReadResult :=
  [ReadOk ["a"; "b"]; ReadErr ["x"]; ReadOk ["c"; "d"]; ReadOk ["e"; "f"]].

Definition two_rows : list (list string) := [["h1"; "h2"]; ["r1"; "r2"]].

Definition one_column : list (list string) := [["h1"]; ["r1"]].

Definition example_env : Env := calm four_lines two_rows.
Definition narrow_env : Env := calm four_lines one_column.
Definition example_log : string := "out-errors.log".


(** The values a byte of a string can have. *)
Definition is_byte (b : Z) : Prop := 0 <= b < 256.

(** What holds of the log and of the counters all along a run: as long as
    [hasErrors] is unset there is no log and nothing has been counted, and
    a log that exists has the name [name] and [hasErrors] is set. *)
Definition log_invariant (name : string) (st : Run) : Prop :=
  (hasErrors st = false ->
   logFile st = None /\ errorCount st = 0 /\ notAppendedCount st = 0)
  /\ (forall path written,
        logFile st = Some (path, written) ->
        path = name /\ hasErrors st = true).

(** A string without a quotation mark. *)
Definition no_quote (s : string) : Prop :=
  forallb (fun c => negb (is_quote c)) (list_ascii_of_string s) = true.

(** A cell of sheet [sheet] that lies below the [existing] rows and within
    the first [maxCols] columns. *)
Definition appended_cell (sheet : string) (existing maxCols : Z)
    (c : CellWrite) : Prop :=
  cw_sheet c = sheet /\ existing < cw_row c /\ 1 <= cw_col c <= maxCols.

(** A string without a dot and without a path separator. *)
Definition plain (s : string) : Prop :=
  forallb (fun c => negb (Ascii.eqb c "/") && negb (Ascii.eqb c "."))
          (list_ascii_of_string s) = true.

(** The environment of the example, but saving the workbook fails. *)
Definition full_disk : Env :=
  {| os_Args := os_Args example_env;
     os_Open := os_Open example_env;
     os_Create := os_Create example_env;
     excelize_OpenFile := fun _ =>
       inr {| GetSheetList := ["Data"; "Notes"];
              GetSheetIndex := fun _ => inr 0;
              GetRows := fun _ => inr two_rows;
              SaveAs := fun _ => Some "no space left on device" |} |}.

(** The environment of the example, but the workbook cannot be opened. *)
Definition no_book : Env :=
  {| os_Args := os_Args example_env;
     os_Open := os_Open example_env;
     os_Create := os_Create example_env;
     excelize_OpenFile := fun _ => inl "zip: not a valid zip file" |}.

(** The environment of the example, but the log cannot be created. *)
Definition read_only : Env :=
  {| os_Args := os_Args example_env;
     os_Open := os_Open example_env;
     os_Create := fun _ => Some "permission denied";
     excelize_OpenFile := excelize_OpenFile example_env |}.

(** The token of the three bytes of the euro sign, U+20AC. *)
Definition euro : string := of_bytes [0xE2; 0x82; 0xAC].



End Notions.

(** * Properties *)

Import GoString csv2XLsheet Notions.

(** ** Sanitization *)

Section Sanitization.

(** One step of the scan: a quotation mark is dropped, any other byte is
    kept. *)
Lemma sanitize_String (c : ascii) (s : string) :
  sanitize (String c s) = if is_quote c then sanitize s else String c (sanitize s).
Proof.
  unfold sanitize, ReplaceAll, is_quote. cbn [replace_from].
  unfold HasPrefix, quote. cbn [prefix len String.length Nat.sub].
  destruct (ascii_dec (ascii_of_nat 34) c) as [e | n].
  - subst c. rewrite Ascii.eqb_refl. destruct s; reflexivity.
  - destruct (Ascii.eqb_spec c (ascii_of_nat 34)) as [e | _]; [congruence | reflexivity].
Qed.

(** The sanitized field is the field without its quotation marks. *)
Lemma sanitize_filter (s : string) :
  list_ascii_of_string (sanitize s)
  = filter (fun c => negb (is_quote c)) (list_ascii_of_string s).
Proof.
  induction s as [| c s IH]; [reflexivity |].
  rewrite sanitize_String. cbn [list_ascii_of_string filter].
  destruct (is_quote c); cbn [negb list_ascii_of_string]; [exact IH | now rewrite IH].
Qed.

Lemma sanitize_no_quote (s : string) :
  forallb (fun c => negb (is_quote c)) (list_ascii_of_string (sanitize s)) = true.
Proof.
  rewrite sanitize_filter. apply forallb_forall. intros c Hc.
  now apply filter_In in Hc.
Qed.

Lemma sanitize_fixed (s : string) :
  forallb (fun c => negb (is_quote c)) (list_ascii_of_string s) = true ->
  sanitize s = s.
Proof.
  induction s as [| c s IH]; [reflexivity |].
  cbn [list_ascii_of_string forallb]. intros H.
  apply andb_prop in H as [Hc Hs]. rewrite sanitize_String.
  destruct (is_quote c); [discriminate |]. now rewrite IH.
Qed.

(** C10: stripping the quotation marks of a field that has already been
    stripped of them returns the field unchanged. *)
Theorem sanitize_idempotent (field : string) :
  sanitize (sanitize field) = sanitize field.
Proof. apply sanitize_fixed, sanitize_no_quote. Qed.

End Sanitization.

(** ** The monad and the machine integers *)

Section Basics.

Lemma int_wrap_small (z : Z) : - 2 ^ 63 <= z < 2 ^ 63 -> int_wrap z = z.
Proof.
  intros H. unfold int_wrap. rewrite Z.mod_small; lia.
Qed.

Lemma int_wrap_range (z : Z) : - 2 ^ 63 <= int_wrap z < 2 ^ 63.
Proof.
  unfold int_wrap.
  pose proof (Z.mod_pos_bound (z + 2 ^ 63) (2 ^ 64) ltac:(lia)). lia.
Qed.

Lemma bind_Ok {A B} (m : M A) (k : A -> M B) (st st' : Run) (a : A) :
  m st = (Ok a, st') -> bind m k st = k a st'.
Proof. intros H. unfold bind. now rewrite H. Qed.

Lemma bind_Fatal {A B} (m : M A) (k : A -> M B) (st st' : Run) (msg : string) :
  m st = (Fatal msg, st') -> bind m k st = (Fatal msg, st').
Proof. intros H. unfold bind. now rewrite H. Qed.

End Basics.

(** ** The reading loop *)

Section Reading.

Variable env : Env.
Variable name : string.
Variable delim startRow : Z.

Lemma read_loop_closed (reader : list ReadResult) :
  forall (v : Ingest) (st : Run),
    loggable env name st \/ failed reader = [] ->
    0 <= lineNumber v ->
    lineNumber v + Z.of_nat (List.length (parsed reader)) < 2 ^ 63 ->
    - 2 ^ 63 <= errorCount st ->
    errorCount st + Z.of_nat (List.length (failed reader)) < 2 ^ 63 ->
    read_loop env name delim startRow reader v st
    = (Ok {| lineNumber := lineNumber v + Z.of_nat (List.length (parsed reader));
             csvData := (csvData v ++
               map sanitize_record
                 (skipn (Z.to_nat (int_wrap (startRow - 1) - lineNumber v))
                        (parsed reader)))%list |},
       after_read name delim reader st).
Proof.
  induction reader as [| [record | record] rest IH]; intros v st Hlog Hl0 Hl1 He0 He1.
  - cbn. unfold ret, after_read. cbn. rewrite skipn_nil, app_nil_r, Z.add_0_r, Z.add_0_r, orb_false_r.
    destruct v, st; reflexivity.
  - cbn [read_loop parsed failed List.length] in *.
    rewrite IH; cbn [lineNumber csvData]; rewrite ?int_wrap_small by lia; try lia; try assumption.
    f_equal. f_equal. f_equal; [lia |].
    destruct (int_wrap (startRow - 1) <=? lineNumber v) eqn:E.
    + apply Z.leb_le in E.
      replace (Z.to_nat (int_wrap (startRow - 1) - lineNumber v)) with 0%nat by lia.
      replace (Z.to_nat (int_wrap (startRow - 1) - (lineNumber v + 1))) with 0%nat by lia.
      cbn. now rewrite <- app_assoc.
    + apply Z.leb_gt in E.
      replace (Z.to_nat (int_wrap (startRow - 1) - lineNumber v))
        with (S (Z.to_nat (int_wrap (startRow - 1) - (lineNumber v + 1)))) by lia.
      reflexivity.
  - cbn [read_loop parsed failed List.length map] in *.
    assert (Hopen : exists st1, open_log env name st = (Ok tt, st1)
              /\ hasErrors st1 = true
              /\ logFile st1 = (if hasErrors st then logFile st else Some (name, []))
              /\ errorCount st1 = errorCount st
              /\ notAppendedCount st1 = notAppendedCount st /\ active st1 = active st
              /\ cells st1 = cells st /\ saved st1 = saved st /\ stdout st1 = stdout st).
    { unfold open_log. destruct (hasErrors st) eqn:Eh.
      - exists st. repeat split; auto.
      - destruct Hlog as [[Hh | Hc] | Hf]; [congruence | | discriminate].
        rewrite Hc. eexists. split; [reflexivity |]. cbn. repeat split. }
    destruct Hopen as (st1 & Ho & H1 & H2 & H3 & H4 & H5 & H6 & H7 & H8).
    rewrite (bind_Ok _ _ _ _ _ Ho).
    unfold WriteString at 1, modify at 1 2. unfold bind at 1 2.
    rewrite IH.
    + f_equal. unfold after_read.
      assert (Hw : int_wrap (errorCount st + 1) = errorCount st + 1)
        by (apply int_wrap_small; lia).
      destruct st1 as [h1 l1 e1 n1 a1 c1 s1 o1].
      destruct st as [h l e n a c s o].
      cbn [hasErrors logFile errorCount notAppendedCount active cells saved stdout] in *.
      subst. unfold logged. cbn [failed]. clear IH.
      destruct h, l as [[p w] |];
        cbn [set_errorCount set_logFile hasErrors logFile errorCount
             notAppendedCount active cells saved stdout orb nonempty];
        rewrite Hw; destruct (failed rest);
        cbn [map nonempty List.length app]; rewrite <- ?app_assoc;
        f_equal; try lia; reflexivity.
    + left. left. destruct (logFile st1) as [[p w] |]; cbn; assumption.
    + assumption.
    + assumption.
    + destruct (logFile st1) as [[p w] |]; cbn; rewrite int_wrap_small; lia.
    + destruct (logFile st1) as [[p w] |]; cbn; rewrite int_wrap_small; lia.
Qed.

End Reading.

(** ** The appending loop *)

Section Appending.

Variable env : Env.
Variable name sheet : string.
Variable delim maxCols nextRow : Z.

Lemma row_cells_from (i : Z) (row : list string) :
  forall j : nat,
    row_cells sheet nextRow i (Z.of_nat j) row
    = map (cell_at sheet (nextRow + i)) (combine (seq j (List.length row)) row).
Proof.
  induction row as [| value rest IH]; intros j; [reflexivity |].
  cbn [row_cells List.length seq combine map]. f_equal.
  replace (Z.of_nat j + 1) with (Z.of_nat (S j)) by lia. apply IH.
Qed.

Lemma row_cells_spec (i : Z) (row : list string) :
  row_cells sheet nextRow i 0 row = cells_of_record sheet (nextRow + i) row.
Proof. exact (row_cells_from i row 0). Qed.

Lemma open_log_ok (st : Run) :
  loggable env name st ->
  open_log env name st
  = (Ok tt, {| hasErrors := true;
               logFile := if hasErrors st then logFile st else Some (name, []);
               errorCount := errorCount st;
               notAppendedCount := notAppendedCount st; active := active st;
               cells := cells st; saved := saved st; stdout := stdout st |}).
Proof.
  intros H. unfold open_log. destruct st as [h l e n a c s o]. cbn.
  destruct h; [reflexivity |].
  destruct H as [H | H]; [discriminate H |]. now rewrite H.
Qed.

Lemma append_loop_closed (data : list (list string)) :
  forall (k : nat) (st : Run),
    loggable env name st \/ filter (oversized maxCols) data = [] ->
    append_loop env name sheet delim maxCols nextRow (Z.of_nat k) data st
    = (Ok tt, after_append name sheet delim maxCols nextRow k data st).
Proof.
  induction data as [| row rest IH]; intros k st Hlog.
  - cbn. unfold ret, after_append. cbn. rewrite app_nil_r, Z.add_0_r, orb_false_r.
    destruct st; reflexivity.
  - cbn [append_loop]. rewrite Z.gtb_ltb. fold (oversized maxCols row).
    replace (Z.of_nat k + 1) with (Z.of_nat (S k)) by lia.
    unfold after_append. cbn [filter List.length seq combine flat_map].
    unfold place_one at 1. cbn [fst snd].
    destruct (oversized maxCols row) eqn:E.
    + rewrite (bind_Ok _ _ _ _ _ (open_log_ok st ltac:(destruct Hlog as [H | H];
                 [exact H | cbn in H; rewrite E in H; discriminate H]))).
      unfold WriteString at 1, modify at 1 2. unfold bind at 1 2.
      rewrite IH.
      * f_equal. unfold after_append. fold (rejected_line delim row).
        destruct st as [h l e n a c s o]. unfold logged.
        destruct h, l as [[p w] |];
          cbn [set_notAppendedCount set_logFile hasErrors logFile errorCount
               notAppendedCount active cells saved stdout orb nonempty];
          destruct (filter (oversized maxCols) rest);
          cbn [map nonempty List.length app]; rewrite <- ?app_assoc;
          f_equal; try lia; reflexivity.
      * left. left. cbn. destruct (if hasErrors st then logFile st else Some (name, [])) as [[p w] |]; reflexivity.
    + unfold modify at 1. unfold bind at 1.
      rewrite IH.
      * f_equal. unfold after_append. rewrite row_cells_spec.
        destruct st as [h l e n a c s o]. cbn. now rewrite <- app_assoc.
      * cbn in Hlog. rewrite E in Hlog. destruct st; exact Hlog.
Qed.

End Appending.

(** ** Placement of one record *)

Section Placement.

Variable env : Env.
Variable name sheet : string.
Variable delim maxCols nextRow : Z.


End Placement.

(** ** Lines read, accepted, skipped and in error *)

Section Accounting.

Variable env : Env.
Variable name : string.
Variable delim : Z.

Lemma parsed_failed_length (reader : list ReadResult) :
  (List.length (parsed reader) + List.length (failed reader))%nat
  = List.length reader.
Proof.
  induction reader as [| [record | record] rest IH]; cbn; lia.
Qed.

Lemma parsed_app (r1 r2 : list ReadResult) :
  parsed (r1 ++ r2) = (parsed r1 ++ parsed r2)%list.
Proof.
  induction r1 as [| [record | record] rest IH]; cbn; now rewrite ?IH.
Qed.

Lemma failed_app (r1 r2 : list ReadResult) :
  failed (r1 ++ r2) = (failed r1 ++ failed r2)%list.
Proof.
  induction r1 as [| [record | record] rest IH]; cbn; now rewrite ?IH.
Qed.

(** The reading loop from the start of a run. *)
Lemma read_loop_start (startRow : Z) (reader : list ReadResult) :
  os_Create env name = None \/ failed reader = [] ->
  Z.of_nat (List.length reader) < 2 ^ 63 ->
  read_loop env name delim startRow reader fresh start
  = (Ok {| lineNumber := Z.of_nat (List.length (parsed reader));
           csvData := accepted startRow reader |},
     after_read name delim reader start).
Proof.
  intros Hc Hlen. pose proof (parsed_failed_length reader) as Hpf.
  rewrite read_loop_closed; cbn [fresh start lineNumber csvData errorCount]; try lia.
  - unfold accepted. now rewrite Z.sub_0_r.
  - destruct Hc as [Hc | Hc]; [left; now right | now right].
Qed.

(** C4, amended: when the reading loop is not ended by the log (the log
    can be created, or no line is unparseable), every line the reader
    yields is accepted, in error, or a parsed line before the start line,
    and is exactly one of them.  When the start line is 1 or less, the
    least [int] apart, nothing is skipped and the accepted and unparseable
    lines add up to all the lines; at the least [int] the start line minus
    one wraps around, every parsed line is skipped and none is accepted. *)
Theorem lines_accounted (startRow : Z) (reader : list ReadResult)
    (Hcreate : os_Create env name = None \/ failed reader = [])
    (Hlen : Z.of_nat (List.length reader) < 2 ^ 63) :
  exists v' st',
    read_loop env name delim startRow reader fresh start = (Ok v', st')
    /\ Z.of_nat (List.length (csvData v')) + errorCount st'
       + Z.of_nat (List.length (skipped startRow reader))
       = Z.of_nat (List.length reader)
    /\ (- 2 ^ 63 < startRow <= 1 ->
        Z.of_nat (List.length (csvData v')) + errorCount st'
        = Z.of_nat (List.length reader))
    /\ (startRow = - 2 ^ 63 ->
        csvData v' = []
        /\ skipped startRow reader = parsed reader
        /\ errorCount st' = Z.of_nat (List.length (failed reader))).
Proof.
  eexists. eexists. split; [apply read_loop_start; auto |].
  cbn [csvData after_read errorCount start]. unfold accepted, skipped.
  pose proof (parsed_failed_length reader) as Hpf.
  set (n := Z.to_nat (int_wrap (startRow - 1))).
  pose proof (firstn_skipn n (parsed reader)) as Hfs.
  apply (f_equal (@List.length _)) in Hfs. rewrite length_app in Hfs.
  rewrite length_map. split; [lia |]. split.
  - intros Hs. subst n. rewrite int_wrap_small by lia.
    replace (Z.to_nat (startRow - 1)) with 0%nat by lia.
    cbn [skipn]. lia.
  - intros ->. subst n. change (int_wrap (- 2 ^ 63 - 1)) with (2 ^ 63 - 1).
    rewrite skipn_all2 by lia. rewrite firstn_all2 by lia. repeat split.
Qed.

Lemma skipn_S_tl {A} (l : list A) :
  forall n, skipn (S n) l = tl (skipn n l).
Proof.
  induction l as [| a l IH]; intros [| n]; try reflexivity.
  cbn [skipn] in *. apply IH.
Qed.

(** Dropping the first [n] parsed records leaves records of the lines
    after the first [n] lines only: all of them but as many as there are
    unparseable lines among the first [n]. *)
Lemma skipn_parsed (reader : list ReadResult) :
  forall n : nat,
    skipn n (parsed reader)
    = skipn (List.length (failed (firstn n reader)))
            (parsed (skipn n reader)).
Proof.
  induction reader as [| [record | record] rest IH]; intros [| n];
    try reflexivity.
  - cbn [parsed firstn failed skipn]. apply IH.
  - cbn [parsed firstn failed List.length].
    change (skipn (S n) (ReadErr record :: rest)) with (skipn n rest).
    rewrite (skipn_S_tl (parsed rest)), IH, <- skipn_S_tl. reflexivity.
Qed.

(** C5, amended: when the reading loop is not ended by the log (the log
    can be created, or no line is unparseable), with start line 0 or 1
    every parsed line is accepted, from the first on.  With start line
    [N > 1] none of the first [N-1] lines is accepted: the accepted
    records are those of the lines after them, less as many records at
    their front as there are unparseable lines among the first [N-1]; so
    all of them when the first [N-1] lines parse.  Whatever the start
    line, the log and the count of errors hold the unparseable lines,
    wherever they are, and nothing else: a parsed line that is left out is
    neither logged nor counted, an unparseable line is both, also among
    the first [N-1]. *)
Theorem start_offset_boundary (startRow : Z) (reader : list ReadResult)
    (Hcreate : os_Create env name = None \/ failed reader = [])
    (Hlen : Z.of_nat (List.length reader) < 2 ^ 63) :
  exists v' st',
    read_loop env name delim startRow reader fresh start = (Ok v', st')
    /\ (startRow = 0 \/ startRow = 1 ->
        csvData v' = map sanitize_record (parsed reader))
    /\ (1 < startRow < 2 ^ 63 ->
        csvData v'
        = map sanitize_record
            (skipn (List.length
                      (failed (firstn (Z.to_nat (startRow - 1)) reader)))
               (parsed (skipn (Z.to_nat (startRow - 1)) reader))))
    /\ errorCount st' = Z.of_nat (List.length (failed reader))
    /\ log_lines st' = map (error_line delim) (failed reader)
    /\ notAppendedCount st' = 0.
Proof.
  eexists. eexists. split; [apply read_loop_start; auto |].
  cbn [csvData after_read errorCount notAppendedCount start]. unfold accepted.
  split; [| split; [| split; [| split]]].
  - intros [-> | ->]; reflexivity.
  - intros HN. rewrite int_wrap_small by lia. now rewrite skipn_parsed.
  - reflexivity.
  - unfold log_lines, logged. cbn.
    destruct (map (error_line delim) (failed reader)); reflexivity.
  - reflexivity.
Qed.

(** C6: a line in error leaves the line number as it is and a parsed
    line adds one to it, so that the line number at the end is the number
    of parsed lines; a parsed line is accepted when the number of parsed
    lines before it, not the number of lines before it, has reached
    [N-1]. *)
Theorem line_index_counts_parsed_lines (N : Z) (pre post : list ReadResult)
    (record : list string)
    (Hcreate : os_Create env name = None)
    (Hlen : Z.of_nat (List.length (pre ++ ReadOk record :: post)) < 2 ^ 63)
    (HN : 1 < N < 2 ^ 63) :
  (forall (bad : list string) (rest : list ReadResult) (v : Ingest) (st : Run),
      loggable env name st ->
      exists st1,
        read_loop env name delim N (ReadErr bad :: rest) v st
        = read_loop env name delim N rest v st1)
  /\ exists v1 st1 v2 st2 v3 st3,
      read_loop env name delim N pre fresh start = (Ok v1, st1)
      /\ read_loop env name delim N (pre ++ [ReadOk record]) fresh start
         = (Ok v2, st2)
      /\ read_loop env name delim N (pre ++ ReadOk record :: post) fresh start
         = (Ok v3, st3)
      /\ lineNumber v1 = Z.of_nat (List.length (parsed pre))
      /\ lineNumber v2 = lineNumber v1 + 1
      /\ lineNumber v3
         = Z.of_nat (List.length (parsed (pre ++ ReadOk record :: post)))
      /\ csvData v2
         = (csvData v1 ++
            if N - 1 <=? Z.of_nat (List.length (parsed pre))
            then [sanitize_record record] else [])%list.
Proof.
  split.
  - intros bad rest v st Hlog. cbn [read_loop].
    rewrite (bind_Ok _ _ _ _ _ (open_log_ok env name st Hlog)).
    unfold WriteString at 1, modify at 1 2. unfold bind at 1 2.
    eexists. reflexivity.
  - rewrite length_app in Hlen. cbn [List.length] in Hlen.
    do 6 eexists.
    split; [apply read_loop_start; auto; lia |].
    split; [apply read_loop_start; auto; rewrite length_app; cbn; lia |].
    split; [apply read_loop_start; auto; rewrite length_app; cbn; lia |].
    cbn [lineNumber csvData]. repeat split.
    + rewrite parsed_app, length_app. cbn. lia.
    + unfold accepted. rewrite int_wrap_small by lia.
      rewrite parsed_app. cbn [parsed]. rewrite skipn_app, map_app. f_equal.
      destruct (N - 1 <=? Z.of_nat (List.length (parsed pre))) eqn:E.
      * apply Z.leb_le in E.
        replace (Z.to_nat (N - 1) - List.length (parsed pre))%nat with 0%nat by lia.
        reflexivity.
      * apply Z.leb_gt in E.
        replace (Z.to_nat (N - 1) - List.length (parsed pre))%nat
          with (S (Z.to_nat (N - 1) - List.length (parsed pre) - 1))%nat by lia.
        cbn [skipn]. now rewrite skipn_nil.
Qed.

End Accounting.

(** ** A whole run *)

Section Run.

Variable env : Env.
Variable fl : Flags.

Let name : string := logFileName (outputFile fl).

Lemma Usage_state (st : Run) :
  exists out, Usage env st = (Ok tt, set_stdout out st).
Proof. eexists. reflexivity. Qed.

Lemma resolve_delimiter_state (token : string) (st : Run) :
  resolve_delimiter token st
  = match delimiter_of token with
    | Some delim => (Ok delim, st)
    | None => (Fatal ("Invalid delimiter: " ++ token), st)
    end.
Proof.
  unfold delimiter_of, resolve_delimiter, ret, fatal.
  destruct (String.eqb token "csv"); [reflexivity |].
  destruct (String.eqb token "tab"); [reflexivity |].
  destruct (utf8.RuneCountInString token =? 1); reflexivity.
Qed.

Lemma nonempty_map {A B} (g : A -> B) (l : list A) :
  nonempty (map g l) = nonempty l.
Proof. destruct l; reflexivity. Qed.

Lemma nonempty_app {A} (l1 l2 : list A) :
  nonempty (l1 ++ l2) = nonempty l1 || nonempty l2.
Proof. destruct l1, l2; reflexivity. Qed.

Lemma logged_after (st0 st : Run) (l1 l2 : list string) :
  hasErrors st = hasErrors st0 || nonempty l1 ->
  logFile st = logged st0 name l1 ->
  logged st name l2 = logged st0 name (l1 ++ l2).
Proof.
  unfold logged. intros -> ->.
  destruct l1 as [| a l1], l2 as [| b l2]; cbn [app nonempty];
    rewrite ?app_nil_r, ?orb_false_r, ?orb_true_r; try reflexivity.
  destruct (hasErrors st0), (logFile st0) as [[p w] |]; cbn;
    rewrite <- ?app_assoc; reflexivity.
Qed.

Lemma logged_start (lines : list string) :
  logged start name lines
  = match lines with [] => None | _ => Some (name, lines) end.
Proof. destruct lines; reflexivity. Qed.

(** What a run leaves behind, from how far it gets. *)
Lemma main_effects (r : Result unit) (st' : Run) :
  os_Create env name = None ->
  (forall file delim, os_Open env (sourceFile fl) = inr file ->
     Z.of_nat (List.length (file delim)) < 2 ^ 63) ->
  main env fl start = (r, st') ->
  let lines := failures (startRow fl) (stage env fl) in
  hasErrors st' = nonempty lines
  /\ logFile st' = match lines with [] => None | _ => Some (name, lines) end
  /\ cells st' = placements (sheetName fl) (startRow fl) (stage env fl)
  /\ (saved st' = None \/ saved st' = Some (outputFile fl) /\ r = Ok tt)
  /\ (r = Ok tt -> exists delim reader rows,
        stage env fl = Appended delim reader rows).
Proof.
  intros Hcreate Hlen. unfold main, stage.
  destruct (List.length (os_Args env) =? 1)%nat.
  { destruct (Usage_state start) as [out Hu].
    rewrite (bind_Ok _ _ _ _ _ Hu). unfold exit. intros H; inversion H; subst.
    cbn. repeat split; auto; discriminate. }
  destruct (String.eqb (sourceFile fl) "" || String.eqb (templateFile fl) ""
            || String.eqb (outputFile fl) "" || String.eqb (sheetName fl) "").
  { destruct (Usage_state start) as [out Hu].
    rewrite (bind_Ok _ _ _ _ _ Hu). unfold fatal. intros H; inversion H; subst.
    cbn. repeat split; auto; discriminate. }
  unfold bind at 1. rewrite resolve_delimiter_state.
  destruct (delimiter_of (delimiter fl)) as [delim |].
  2:{ intros H; inversion H; subst. cbn. repeat split; auto; discriminate. }
  destruct (os_Open env (sourceFile fl)) as [err | file] eqn:Hopen.
  { unfold fatal. intros H; inversion H; subst. cbn. repeat split; auto; discriminate. }
  fold name. unfold bind at 1.
  change {| lineNumber := 0; csvData := [] |} with fresh.
  rewrite read_loop_start by (auto using Hlen).
  set (reader := file delim).
  assert (Hread : forall msg : string,
    let lines := failures (startRow fl) (ReadOnly delim reader) in
    hasErrors (after_read name delim reader start) = nonempty lines
    /\ logFile (after_read name delim reader start)
       = match lines with [] => None | _ => Some (name, lines) end
    /\ cells (after_read name delim reader start) = []
    /\ (saved (after_read name delim reader start) = None
        \/ saved (after_read name delim reader start) = Some (outputFile fl)
           /\ @Fatal unit msg = Ok tt)
    /\ (@Fatal unit msg = Ok tt -> exists delim0 reader0 rows,
          ReadOnly delim reader = Appended delim0 reader0 rows)).
  { intros msg. cbn. unfold logged. cbn.
    destruct (map (error_line delim) (failed reader)) eqn:E;
      [apply map_eq_nil in E; rewrite E | destruct (failed reader); [discriminate E |]];
      cbn; repeat split; auto; discriminate. }
  destruct (excelize_OpenFile env (templateFile fl)) as [err | f].
  { unfold fatal. intros H; inversion H; subst. apply Hread. }
  destruct (negb (existsb (fun n => String.eqb n (sheetName fl)) (GetSheetList f))).
  { unfold fatal. intros H; inversion H; subst. apply Hread. }
  destruct (GetSheetIndex f (sheetName fl)) as [err | sheetIndex].
  { unfold fatal. intros H; inversion H; subst. apply Hread. }
  unfold modify at 1. unfold bind at 1.
  destruct (GetRows f (sheetName fl)) as [err | rows].
  { unfold fatal. intros H; inversion H; subst.
    destruct (Hread err) as (H1 & H2 & H3 & H4 & H5).
    repeat split; auto. discriminate. }
  unfold bind at 1.
  change 0 with (Z.of_nat 0) at 1.
  rewrite append_loop_closed by (left; right; exact Hcreate).
  clear Hread.
  set (data := accepted (startRow fl) reader).
  set (rej := filter (oversized (maxCols_of rows)) data).
  assert (Hfin : forall st, 
    hasErrors st = hasErrors (after_append name (sheetName fl) delim (maxCols_of rows) (nextRow_of rows) 0 data
             (set_active (Some sheetIndex) (after_read name delim reader start))) ->
    logFile st = logFile (after_append name (sheetName fl) delim (maxCols_of rows) (nextRow_of rows) 0 data
             (set_active (Some sheetIndex) (after_read name delim reader start))) ->
    cells st = cells (after_append name (sheetName fl) delim (maxCols_of rows) (nextRow_of rows) 0 data
             (set_active (Some sheetIndex) (after_read name delim reader start))) ->
    let lines := failures (startRow fl) (Appended delim reader rows) in
    hasErrors st = nonempty lines
    /\ logFile st = match lines with [] => None | _ => Some (name, lines) end
    /\ cells st = placements (sheetName fl) (startRow fl) (Appended delim reader rows)).
  { intros st -> -> ->. unfold after_append, set_active.
    cbn [hasErrors logFile cells errorCount notAppendedCount active saved stdout].
    fold data. fold rej. cbn [failures placements]. fold data. fold rej.
    split; [| split].
    - cbn [after_read hasErrors start orb].
      now rewrite nonempty_app, !nonempty_map.
    - rewrite <- logged_start. apply logged_after.
      + cbn. now rewrite nonempty_map.
      + reflexivity.
    - reflexivity. }
  destruct (SaveAs f (outputFile fl)) as [err |].
  { unfold fatal. intros H; inversion H; subst.
    destruct (Hfin _ eq_refl eq_refl eq_refl) as (H1 & H2 & H3).
    repeat split; auto. discriminate. }
  unfold modify at 1. unfold bind at 1. unfold print at 1, modify at 1. unfold bind at 1.
  unfold get at 1. unfold bind at 1.
  match goal with |- context [if ?b then _ else _] => destruct b end.
  - unfold get at 1. unfold bind at 1. unfold print, modify.
    intros H; inversion H; subst r st'; clear H. cbv zeta.
    match goal with |- hasErrors ?s = _ /\ _ =>
      destruct (Hfin s eq_refl eq_refl eq_refl) as (H1 & H2 & H3) end.
    repeat split; auto. intros _. do 3 eexists. reflexivity.
  - unfold ret. intros H; inversion H; subst r st'; clear H. cbv zeta.
    match goal with |- hasErrors ?s = _ /\ _ =>
      destruct (Hfin s eq_refl eq_refl eq_refl) as (H1 & H2 & H3) end.
    repeat split; auto. intros _. do 3 eexists. reflexivity.
Qed.

End Run.

(** ** The name of the log *)

Section LogName.

Lemma length_append (a b : string) :
  String.length (a ++ b) = (String.length a + String.length b)%nat.
Proof. induction a as [| c a IH]; cbn; [reflexivity | now rewrite IH]. Qed.

Lemma substring_all (s : string) : substring 0 (String.length s) s = s.
Proof. induction s as [| c s IH]; cbn; [reflexivity | now rewrite IH]. Qed.

Lemma substring_append_l (a b : string) :
  substring 0 (String.length a) (a ++ b) = a.
Proof.
  induction a as [| c a IH]; cbn; [destruct b; reflexivity | now rewrite IH].
Qed.

Lemma substring_append_r (a b : string) :
  substring (String.length a) (String.length b) (a ++ b) = b.
Proof. induction a as [| c a IH]; cbn; [apply substring_all | exact IH]. Qed.

Lemma string_of_list_ascii_app (l1 l2 : list ascii) :
  string_of_list_ascii (l1 ++ l2)
  = string_of_list_ascii l1 ++ string_of_list_ascii l2.
Proof. induction l1 as [| c l1 IH]; cbn; [reflexivity | now rewrite IH]. Qed.

Lemma TrimSuffix_append (stem suffix : string) :
  TrimSuffix (stem ++ suffix) suffix = stem.
Proof.
  unfold TrimSuffix, HasSuffix, len. rewrite length_append.
  replace (String.length stem + String.length suffix - String.length suffix)%nat
    with (String.length stem) by lia.
  rewrite substring_append_r, String.eqb_refl, substring_append_l.
  replace (String.length suffix <=? String.length stem + String.length suffix)%nat
    with true by (symmetry; apply Nat.leb_le; lia).
  reflexivity.
Qed.

(** What the scan of [filepath.Ext] returns is a suffix of what it has
    scanned, holds no separator, and holds a dot at its head only. *)
Lemma ext_scan_suffix (rv : list ascii) :
  forall acc, exists pre, (rev rv ++ acc = pre ++ ext_scan rv acc)%list.
Proof.
  induction rv as [| c rest IH]; intros acc.
  - exists acc. cbn. now rewrite app_nil_r.
  - cbn [ext_scan rev]. rewrite <- app_assoc. cbn [app].
    destruct (Ascii.eqb c "/").
    + exists (rev rest ++ c :: acc)%list. now rewrite app_nil_r.
    + destruct (Ascii.eqb c ".").
      * now exists (rev rest).
      * apply IH.
Qed.

Lemma Ext_is_suffix (path : string) : exists stem, path = stem ++ Ext path.
Proof.
  unfold Ext.
  destruct (ext_scan_suffix (rev (list_ascii_of_string path)) []) as [pre H].
  rewrite rev_involutive, app_nil_r in H.
  exists (string_of_list_ascii pre).
  rewrite <- string_of_list_ascii_app, <- H.
  symmetry. apply string_of_list_ascii_of_string.
Qed.

Lemma ext_scan_shape (rv : list ascii) :
  forall acc,
    forallb (fun c => negb (Ascii.eqb c "/") && negb (Ascii.eqb c ".")) acc = true ->
    ext_scan rv acc = []
    \/ exists tail, ext_scan rv acc = "."%char :: tail
         /\ forallb (fun c => negb (Ascii.eqb c "/") && negb (Ascii.eqb c "."))
                    tail = true.
Proof.
  induction rv as [| c rest IH]; intros acc Hacc; [now left |].
  cbn [ext_scan]. destruct (Ascii.eqb c "/") eqn:E1; [now left |].
  destruct (Ascii.eqb_spec c ".") as [-> | E2].
  - right. now exists acc.
  - apply IH. cbn [forallb]. rewrite E1, Hacc.
    destruct (Ascii.eqb_spec c "."); [contradiction | reflexivity].
Qed.

(** The name of the log is the name of the output without its extension,
    followed by [-errors.log]; the extension is empty, or it is the last
    dot of the last element of the path and what follows it. *)
Lemma logFileName_spec (path : string) :
  exists stem,
    path = stem ++ Ext path
    /\ logFileName path = stem ++ "-errors.log"
    /\ (Ext path = ""
        \/ exists tail, Ext path = String "." tail
             /\ forallb (fun c => negb (Ascii.eqb c "/") && negb (Ascii.eqb c "."))
                        (list_ascii_of_string tail) = true).
Proof.
  destruct (Ext_is_suffix path) as [stem Hs]. exists stem.
  split; [exact Hs |]. split.
  - unfold logFileName. rewrite Hs at 1. now rewrite TrimSuffix_append.
  - unfold Ext.
    destruct (ext_scan_shape (rev (list_ascii_of_string path)) [] eq_refl)
      as [-> | (tail & -> & Ht)]; [now left |].
    right. exists (string_of_list_ascii tail). split; [reflexivity |].
    now rewrite list_ascii_of_string_of_list_ascii.
Qed.

End LogName.

(** ** Cells, row by row *)

Section Cells.

Variable sheet : string.
Variable maxCols nextRow : Z.

Lemma cells_of_record_row (r : Z) (row : list string) :
  forallb (fun c => cw_row c =? r) (cells_of_record sheet r row) = true.
Proof.
  unfold cells_of_record. apply forallb_forall. intros c Hc.
  apply in_map_iff in Hc as (jv & <- & _). cbn. apply Z.eqb_refl.
Qed.

Lemma filter_all {A} (p : A -> bool) (l : list A) :
  forallb p l = true -> filter p l = l.
Proof.
  induction l as [| a l IH]; [reflexivity |]. cbn. intros H.
  apply andb_prop in H as [Ha Hl]. rewrite Ha. now rewrite IH.
Qed.

Lemma filter_none {A} (p : A -> bool) (l : list A) :
  forallb (fun a => negb (p a)) l = true -> filter p l = [].
Proof.
  induction l as [| a l IH]; [reflexivity |]. cbn. intros H.
  apply andb_prop in H as [Ha Hl]. destruct (p a); [discriminate Ha | now apply IH].
Qed.

Lemma place_one_row (k : nat) (row : list string) :
  forallb (fun c => cw_row c =? nextRow + Z.of_nat k)
          (place_one sheet maxCols nextRow (k, row)) = true.
Proof.
  unfold place_one. cbn [fst snd].
  destruct (oversized maxCols row); [reflexivity | apply cells_of_record_row].
Qed.

Lemma place_one_other_row (k i : nat) (row : list string) :
  k <> i ->
  forallb (fun c => negb (cw_row c =? nextRow + Z.of_nat i))
          (place_one sheet maxCols nextRow (k, row)) = true.
Proof.
  intros Hki. apply forallb_forall. intros c Hc.
  pose proof (place_one_row k row) as H.
  rewrite forallb_forall in H. specialize (H c Hc).
  apply Z.eqb_eq in H. rewrite H.
  destruct (Z.eqb_spec (nextRow + Z.of_nat k) (nextRow + Z.of_nat i)); [lia | reflexivity].
Qed.

(** The cells on sheet row [nextRow+i] are those of record [i]. *)
Lemma filter_placed_from (data : list (list string)) :
  forall (k i : nat) (row : list string),
    nth_error data i = Some row ->
    filter (fun c => cw_row c =? nextRow + Z.of_nat (k + i))
           (flat_map (place_one sheet maxCols nextRow)
                     (combine (seq k (List.length data)) data))
    = place_one sheet maxCols nextRow ((k + i)%nat, row).
Proof.
  induction data as [| first rest IH]; intros k i row Hi.
  - destruct i; discriminate Hi.
  - cbn [List.length seq combine flat_map]. rewrite filter_app.
    destruct i as [| i].
    + cbn in Hi. inversion Hi; subst first. rewrite Nat.add_0_r.
      rewrite (filter_all _ _ (place_one_row k row)).
      rewrite filter_none; [apply app_nil_r |].
      apply forallb_forall. intros c Hc. apply in_flat_map in Hc as ([k' row'] & Hin & Hc).
      apply in_combine_l in Hin. apply in_seq in Hin.
      pose proof (place_one_other_row k' k row' ltac:(lia)) as H.
      rewrite forallb_forall in H. now apply H.
    + cbn in Hi. rewrite (filter_none _ _ (place_one_other_row k (k + S i) first ltac:(lia))).
      cbn [app]. replace (k + S i)%nat with (S k + i)%nat by lia. now apply IH.
Qed.

Lemma filter_placed (data : list (list string)) (i : nat) (row : list string) :
  nth_error data i = Some row ->
  filter (fun c => cw_row c =? nextRow + Z.of_nat i)
         (placed sheet maxCols nextRow data)
  = if oversized maxCols row then []
    else cells_of_record sheet (nextRow + Z.of_nat i) row.
Proof.
  intros Hi. exact (filter_placed_from data 0 i row Hi).
Qed.

Lemma nth_error_enumerate_from {A} (l : list A) :
  forall (k j : nat) (a : A),
    nth_error l j = Some a ->
    nth_error (combine (seq k (List.length l)) l) j = Some ((k + j)%nat, a).
Proof.
  induction l as [| b l IH]; intros k j a Hj; [destruct j; discriminate Hj |].
  destruct j as [| j]; cbn in *.
  - inversion Hj. now rewrite Nat.add_0_r.
  - rewrite (IH (S k) j a Hj). f_equal. f_equal. lia.
Qed.

Lemma cells_of_record_nth (r : Z) (row : list string) (j : nat) (value : string) :
  nth_error row j = Some value ->
  nth_error (cells_of_record sheet r row) j
  = Some {| cw_sheet := sheet; cw_col := Z.of_nat j + 1; cw_row := r;
            cw_value := value |}.
Proof.
  intros Hj. unfold cells_of_record, enumerate.
  rewrite nth_error_map, (nth_error_enumerate_from row 0 j value Hj). reflexivity.
Qed.

Lemma cells_of_record_length (r : Z) (row : list string) :
  List.length (cells_of_record sheet r row) = List.length row.
Proof.
  unfold cells_of_record, enumerate.
  rewrite length_map, length_combine, length_seq. lia.
Qed.

End Cells.

(** ** Properties of a whole run *)

Section WholeRun.

Variable env : Env.
Variable fl : Flags.

(** C1: in a run that gets to the appending loop, the cells written are
    those of the accepted records that fit: the record at index [i] of the
    accepted records puts one cell per field on sheet row [nextRow+i], its
    field [j] in column [j+1], and a record that does not fit leaves its
    row [nextRow+i] without a cell; the rows of the records after it are
    not moved up. *)
Theorem record_cells (r : Result unit) (st' : Run) (delim : Z)
    (reader : list ReadResult) (rows : list (list string))
    (Hcreate : os_Create env (logFileName (outputFile fl)) = None)
    (Hlen : forall file d, os_Open env (sourceFile fl) = inr file ->
              Z.of_nat (List.length (file d)) < 2 ^ 63)
    (Hrun : main env fl start = (r, st'))
    (Hstage : stage env fl = Appended delim reader rows) :
  let data := accepted (startRow fl) reader in
  let maxCols := maxCols_of rows in
  let nextRow := nextRow_of rows in
  cells st' = placed (sheetName fl) maxCols nextRow data
  /\ forall (i : nat) (row : list string),
       nth_error data i = Some row ->
       let on_row :=
         filter (fun c => cw_row c =? nextRow + Z.of_nat i) (cells st') in
       (maxCols < Z.of_nat (List.length row) -> on_row = [])
       /\ (Z.of_nat (List.length row) <= maxCols ->
           List.length on_row = List.length row
           /\ forall (j : nat) (value : string),
                nth_error row j = Some value ->
                nth_error on_row j
                = Some {| cw_sheet := sheetName fl; cw_col := Z.of_nat j + 1;
                          cw_row := nextRow + Z.of_nat i;
                          cw_value := value |}).
Proof.
  intros data maxCols nextRow.
  destruct (main_effects env fl r st' Hcreate Hlen Hrun) as (_ & _ & Hcells & _).
  rewrite Hstage in Hcells. cbn [placements] in Hcells.
  split; [exact Hcells |].
  intros i row Hi on_row. subst on_row. rewrite Hcells.
  fold data maxCols nextRow.
  rewrite (filter_placed (sheetName fl) maxCols nextRow data i row Hi).
  unfold oversized. split; intros HF.
  - apply Z.ltb_lt in HF. now rewrite HF.
  - apply Z.ltb_ge in HF. rewrite HF. split.
    + apply cells_of_record_length.
    + intros j value Hj. now apply cells_of_record_nth.
Qed.

(** The loops run from left to right: the state after a prefix is the
    state the loop is in when it has dealt with that prefix. *)
Lemma bind_assoc {A B C} (m : M A) (k : A -> M B) (h : B -> M C) (st : Run) :
  bind (bind m k) h st = bind m (fun a => bind (k a) h) st.
Proof. unfold bind. destruct (m st) as [[a | msg | c] st1]; reflexivity. Qed.

Lemma bind_ext {A B} (m : M A) (k k' : A -> M B) (st : Run) :
  (forall a st1, k a st1 = k' a st1) -> bind m k st = bind m k' st.
Proof.
  intros H. unfold bind. destruct (m st) as [[a | msg | c] st1]; auto.
Qed.

Lemma read_loop_app (name : string) (delim sr : Z) (r1 r2 : list ReadResult) :
  forall (v : Ingest) (st : Run),
    read_loop env name delim sr (r1 ++ r2) v st
    = bind (read_loop env name delim sr r1 v)
           (fun v' => read_loop env name delim sr r2 v') st.
Proof.
  induction r1 as [| [record | record] rest IH]; intros v st.
  - reflexivity.
  - cbn [app read_loop]. apply IH.
  - cbn [app read_loop]. rewrite bind_assoc.
    apply bind_ext. intros _ st1. rewrite bind_assoc.
    apply bind_ext. intros _ st2. rewrite bind_assoc.
    apply bind_ext. intros _ st3. apply IH.
Qed.

Lemma append_loop_app (name sheet : string) (delim maxCols nextRow : Z)
    (d1 d2 : list (list string)) :
  forall (i : Z) (st : Run),
    append_loop env name sheet delim maxCols nextRow i (d1 ++ d2) st
    = bind (append_loop env name sheet delim maxCols nextRow i d1)
           (fun _ => append_loop env name sheet delim maxCols nextRow
                       (i + Z.of_nat (List.length d1)) d2) st.
Proof.
  induction d1 as [| row rest IH]; intros i st.
  - cbn. unfold bind, ret. now rewrite Z.add_0_r.
  - cbn [app append_loop List.length].
    replace (i + Z.of_nat (S (List.length rest)))
      with (i + 1 + Z.of_nat (List.length rest)) by lia.
    destruct (Z.of_nat (List.length row) >? maxCols).
    + rewrite bind_assoc.
      apply bind_ext. intros _ st1. rewrite bind_assoc.
      apply bind_ext. intros _ st2. rewrite bind_assoc.
      apply bind_ext. intros _ st3. apply IH.
    + rewrite bind_assoc. apply bind_ext. intros _ st1. apply IH.
Qed.

(** C7: the log exists at the end of a run exactly when the run has met
    a failure, an unparseable line or a record that is too wide.  It then
    holds one entry per failure; its name is the name of the output file
    without the extension, followed by [-errors.log]; and it is created
    when the first failure is met: the loops leave no log as long as they
    have met none, and have created it once they have dealt with the
    first. *)
Theorem log_created_iff_failure (r : Result unit) (st' : Run)
    (Hcreate : os_Create env (logFileName (outputFile fl)) = None)
    (Hlen : forall file d, os_Open env (sourceFile fl) = inr file ->
              Z.of_nat (List.length (file d)) < 2 ^ 63)
    (Hrun : main env fl start = (r, st')) :
  let name := logFileName (outputFile fl) in
  let lines := failures (startRow fl) (stage env fl) in
  (logFile st' <> None <-> lines <> [])
  /\ (lines = [] -> logFile st' = None /\ hasErrors st' = false)
  /\ (lines <> [] -> logFile st' = Some (name, lines))
  /\ (exists stem, outputFile fl = stem ++ Ext (outputFile fl)
                   /\ name = stem ++ "-errors.log")
  /\ (forall (delim sr : Z) (pre : list ReadResult) (bad : list string),
        failed pre = [] ->
        Z.of_nat (List.length (pre ++ [ReadErr bad])) < 2 ^ 63 ->
        exists v1 st1 v2 st2,
          read_loop env name delim sr pre fresh start = (Ok v1, st1)
          /\ logFile st1 = None
          /\ read_loop env name delim sr (pre ++ [ReadErr bad]) fresh start
             = (Ok v2, st2)
          /\ logFile st2 = Some (name, [error_line delim bad]))
  /\ (forall (sheet : string) (delim maxCols nextRow : Z)
             (pre : list (list string)) (row : list string) (st : Run),
        hasErrors st = false -> logFile st = None ->
        filter (oversized maxCols) pre = [] ->
        oversized maxCols row = true ->
        exists st1 st2,
          append_loop env name sheet delim maxCols nextRow 0 pre st = (Ok tt, st1)
          /\ logFile st1 = None
          /\ append_loop env name sheet delim maxCols nextRow 0 (pre ++ [row]) st
             = (Ok tt, st2)
          /\ logFile st2 = Some (name, [rejected_line delim row])).
Proof.
  intros name lines.
  destruct (main_effects env fl r st' Hcreate Hlen Hrun) as (Hh & Hl & _).
  fold lines in Hh, Hl. fold name in Hl.
  split; [| split; [| split; [| split; [| split]]]].
  - rewrite Hl. destruct lines; split; congruence.
  - intros E. rewrite E in Hh, Hl. now split.
  - intros E. rewrite Hl. destruct lines; [contradiction | reflexivity].
  - destruct (logFileName_spec (outputFile fl)) as (stem & H1 & H2 & _).
    exists stem. now split.
  - intros delim sr pre bad Hpre Hn. rewrite length_app in Hn. cbn in Hn.
    do 4 eexists.
    split; [apply read_loop_start; [now right | lia] |].
    split; [cbn; now rewrite Hpre |].
    split; [apply read_loop_start; [now left | rewrite length_app; cbn; lia] |].
    cbn. rewrite failed_app, Hpre. reflexivity.
  - intros sheet delim maxCols nextRow pre row st Hh0 Hl0 Hpre Hrow.
    do 2 eexists. change 0 with (Z.of_nat 0).
    split; [apply append_loop_closed; now right |].
    split; [cbn; rewrite Hpre; exact Hl0 |].
    split; [apply append_loop_closed; left; now right |].
    cbn. rewrite filter_app, Hpre. cbn. rewrite Hrow. cbn.
    unfold logged. cbn. now rewrite Hh0.
Qed.

(** C8, amended: when the sheet is not in the workbook, and the run gets
    to open the workbook (the flags are given, the delimiter is accepted,
    the source opens, and the log can be created if the source has an
    unparseable line), the run ends with the fatal error that names the
    sheet; nothing has been saved, no cell has been written and no record
    has been rejected.  The source has been read before the workbook is
    opened: the log exists at that point exactly when the source has an
    unparseable line, and holds these lines. *)
Theorem unknown_sheet_is_fatal (delim : Z) (file : Z -> list ReadResult)
    (f : ExcelFile)
    (Hargs : List.length (os_Args env) <> 1%nat)
    (Hflags : sourceFile fl <> "" /\ templateFile fl <> ""
              /\ outputFile fl <> "" /\ sheetName fl <> "")
    (Hdelim : delimiter_of (delimiter fl) = Some delim)
    (Hopen : os_Open env (sourceFile fl) = inr file)
    (Hlen : Z.of_nat (List.length (file delim)) < 2 ^ 63)
    (Hcreate : os_Create env (logFileName (outputFile fl)) = None
               \/ failed (file delim) = [])
    (Hbook : excelize_OpenFile env (templateFile fl) = inr f)
    (Hsheet : ~ In (sheetName fl) (GetSheetList f)) :
  exists st',
    main env fl start
    = (Fatal ("Sheet '" ++ sheetName fl ++ "' does not exist in the template file!"),
       st')
    /\ saved st' = None /\ cells st' = [] /\ notAppendedCount st' = 0
    /\ log_lines st' = map (error_line delim) (failed (file delim))
    /\ (logFile st' = None <-> failed (file delim) = []).
Proof.
  destruct Hflags as (F1 & F2 & F3 & F4).
  exists (after_read (logFileName (outputFile fl)) delim (file delim) start).
  split.
  - unfold main.
    apply Nat.eqb_neq in Hargs. rewrite Hargs.
    apply String.eqb_neq in F1, F2, F3, F4. rewrite F1, F2, F3, F4. cbn [orb].
    unfold bind at 1. rewrite resolve_delimiter_state, Hdelim, Hopen.
    unfold bind at 1. change {| lineNumber := 0; csvData := [] |} with fresh.
    rewrite read_loop_start by auto. rewrite Hbook.
    replace (existsb (fun n => String.eqb n (sheetName fl)) (GetSheetList f))
      with false; [reflexivity |].
    symmetry. apply not_true_is_false. intros H.
    apply existsb_exists in H as (n & Hin & Hn).
    apply String.eqb_eq in Hn. now subst n.
  - cbn. unfold log_lines, logged. cbn.
    destruct (failed (file delim)) as [| bad rest]; cbn; repeat split;
      try reflexivity; intros H; discriminate H.
Qed.

End WholeRun.

(** ** The geometry of the sheet *)

Section Geometry.

(** C3, amended: the width the sheet accepts is the number of fields of
    its first row, whatever the other rows are, and 16384 when the sheet
    has no row; a record of at most 16384 fields then passes the test of
    the appending loop.  The next free row is the number of rows plus
    one. *)
Theorem sheet_geometry (rows : list (list string)) :
  nextRow_of rows = Z.of_nat (List.length rows) + 1
  /\ (forall (first : list string) (others : list (list string)),
        rows = first :: others ->
        maxCols_of rows = Z.of_nat (List.length first))
  /\ (rows = [] ->
      maxCols_of rows = 16384
      /\ forall row : list string,
           Z.of_nat (List.length row) <= 16384 ->
           (Z.of_nat (List.length row) >? maxCols_of rows) = false).
Proof.
  split; [reflexivity |]. split.
  - intros first others ->. reflexivity.
  - intros ->. split; [reflexivity |]. intros row H. cbn [maxCols_of].
    rewrite Z.gtb_ltb. apply Z.ltb_ge. exact H.
Qed.

(** On a sheet without rows a record of 16385 fields is rejected. *)
Lemma empty_sheet_rejects_wide_record :
  exists st,
    append_loop (calm [] []) "out-errors.log" "Data" 44
      (maxCols_of []) (nextRow_of []) 0 [repeat "x" (Z.to_nat 16385)] start
    = (Ok tt, st)
    /\ notAppendedCount st = 1 /\ cells st = [] /\ hasErrors st = true.
Proof.
  eexists. split.
  - change 0 with (Z.of_nat 0). apply append_loop_closed. left. now right.
  - assert (E : oversized (maxCols_of []) (repeat "x" (Z.to_nat 16385)) = true).
    { unfold oversized. rewrite repeat_length. reflexivity. }
    unfold after_append, place_one.
    cbn [filter List.length seq combine flat_map fst snd]. rewrite E.
    repeat split.
Qed.

End Geometry.

(** ** Runs that show what the code does *)

Section Examples.

(** With start line 2 a source of one parsed line gives no accepted
    record and no error. *)
Lemma skipped_line_is_not_accounted :
  exists v st,
    read_loop (calm [ReadOk ["a"]] []) "out-errors.log" 44 2 [ReadOk ["a"]]
      fresh start = (Ok v, st)
    /\ Z.of_nat (List.length (csvData v)) + errorCount st
       <> Z.of_nat (List.length [ReadOk ["a"]]).
Proof.
  do 2 eexists. split; [lazy; reflexivity |]. cbn. discriminate.
Qed.

(** The four lines with start line 3: the second line, one of the first
    two, cannot be parsed and is logged and counted. *)
Lemma unparseable_line_before_start_is_logged :
  returnable four_lines = true
  /\ exists v st,
       read_loop example_env example_log 44 3 four_lines fresh start
       = (Ok v, st)
       /\ csvData v = [["e"; "f"]]
       /\ errorCount st = 1
       /\ log_lines st = ["Error reading line: x" ++ nl].
Proof.
  split; [reflexivity |].
  do 2 eexists. split; [lazy; reflexivity |]. repeat split.
Qed.

(** The four lines and a sheet that is not in the workbook: the log
    has been written when the run ends. *)
Lemma unknown_sheet_after_log_written :
  returnable four_lines = true
  /\ exists st,
       main example_env (flags_for "Missing" "csv" 1) start
       = (Fatal "Sheet 'Missing' does not exist in the template file!", st)
       /\ logFile st
          = Some ("out-errors.log", ["Error reading line: x" ++ nl]).
Proof.
  split; [reflexivity |].
  eexists. split; [lazy; reflexivity |]. reflexivity.
Qed.

(** The four lines read with start line 2. *)
Lemma lines_accounted_witness :
  os_Create example_env example_log = None
  /\ Z.of_nat (List.length four_lines) < 2 ^ 63
  /\ exists v' st',
       read_loop example_env example_log 44 2 four_lines fresh start = (Ok v', st')
       /\ Z.of_nat (List.length (csvData v')) + errorCount st'
          + Z.of_nat (List.length (skipped 2 four_lines))
          = Z.of_nat (List.length four_lines).
Proof.
  split; [reflexivity |]. split; [reflexivity |].
  destruct (lines_accounted example_env example_log 44 2 four_lines
              (or_introl eq_refl) eq_refl)
    as (v' & st' & H1 & H2 & _).
  exists v', st'. split; [exact H1 | exact H2].
Defined.

(** The four lines read with start line 2: the first line parses and is
    left out, the error of the second line is counted. *)
Lemma start_offset_boundary_witness :
  os_Create example_env example_log = None
  /\ Z.of_nat (List.length four_lines) < 2 ^ 63
  /\ exists v' st',
       read_loop example_env example_log 44 2 four_lines fresh start = (Ok v', st')
       /\ csvData v' = [["c"; "d"]; ["e"; "f"]]
       /\ errorCount st' = 1
       /\ log_lines st' = ["Error reading line: x" ++ nl].
Proof.
  split; [reflexivity |]. split; [reflexivity |].
  destruct (start_offset_boundary example_env example_log 44 2 four_lines
              (or_introl eq_refl) eq_refl)
    as (v' & st' & H1 & _ & H3 & H4 & H5 & _).
  exists v', st'. split; [exact H1 |].
  split; [rewrite (H3 (conj eq_refl eq_refl)); reflexivity |].
  split; [exact H4 | rewrite H5; reflexivity].
Defined.

(** The four lines with start line 3: the third line has line number 1,
    not 2, and is left out. *)
Lemma line_index_counts_parsed_lines_witness :
  os_Create example_env example_log = None
  /\ Z.of_nat (List.length ([ReadOk ["a"; "b"]; ReadErr ["x"]]
                            ++ ReadOk ["c"; "d"] :: [ReadOk ["e"; "f"]]))
     < 2 ^ 63
  /\ 1 < 3 < 2 ^ 63
  /\ exists v1 st1 v2 st2,
       read_loop example_env example_log 44 3
         [ReadOk ["a"; "b"]; ReadErr ["x"]] fresh start = (Ok v1, st1)
       /\ read_loop example_env example_log 44 3
            ([ReadOk ["a"; "b"]; ReadErr ["x"]] ++ [ReadOk ["c"; "d"]])
            fresh start
          = (Ok v2, st2)
       /\ lineNumber v1 = 1 /\ lineNumber v2 = 2 /\ csvData v2 = csvData v1.
Proof.
  split; [reflexivity |]. split; [reflexivity |].
  split; [split; reflexivity |].
  destruct (line_index_counts_parsed_lines example_env example_log 44 3
              [ReadOk ["a"; "b"]; ReadErr ["x"]]
              [ReadOk ["e"; "f"]] ["c"; "d"] eq_refl eq_refl
              (conj eq_refl eq_refl))
    as (_ & v1 & st1 & v2 & st2 & v3 & st3 & H1 & H2 & _ & H4 & H5 & _ & H7).
  exists v1, st1, v2, st2. split; [exact H1 |]. split; [exact H2 |].
  split; [exact H4 |]. split; [rewrite H5, H4; reflexivity |].
  rewrite H7. apply app_nil_r.
Defined.

End Examples.

Section RunExamples.

(** The reader of the example is short. *)
Lemma example_Hlen (fl : Flags) :
  forall (file : Z -> list ReadResult) (d : Z),
    os_Open example_env (sourceFile fl) = inr file ->
    Z.of_nat (List.length (file d)) < 2 ^ 63.
Proof.
  intros file d H. inversion H. reflexivity.
Defined.

(** The run on the four lines and the sheet of two rows: the three
    records go to rows 3, 4 and 5. *)
Lemma record_cells_witness :
  os_Create example_env (logFileName "out.xlsx") = None
  /\ stage example_env (flags_for "Data" "csv" 1)
     = Appended 44 four_lines two_rows
  /\ exists r st',
       main example_env (flags_for "Data" "csv" 1) start = (r, st')
       /\ cells st'
          = [ {| cw_sheet := "Data"; cw_col := 1; cw_row := 3; cw_value := "a" |};
              {| cw_sheet := "Data"; cw_col := 2; cw_row := 3; cw_value := "b" |};
              {| cw_sheet := "Data"; cw_col := 1; cw_row := 4; cw_value := "c" |};
              {| cw_sheet := "Data"; cw_col := 2; cw_row := 4; cw_value := "d" |};
              {| cw_sheet := "Data"; cw_col := 1; cw_row := 5; cw_value := "e" |};
              {| cw_sheet := "Data"; cw_col := 2; cw_row := 5; cw_value := "f" |} ].
Proof.
  split; [reflexivity |]. split; [reflexivity |].
  exists (fst (main example_env (flags_for "Data" "csv" 1) start)),
         (snd (main example_env (flags_for "Data" "csv" 1) start)).
  split; [apply surjective_pairing |].
  rewrite (proj1 (record_cells example_env (flags_for "Data" "csv" 1) _ _ 44
                    four_lines two_rows eq_refl
                    (example_Hlen (flags_for "Data" "csv" 1))
                    (surjective_pairing _) eq_refl)).
  reflexivity.
Defined.

Lemma narrow_Hlen (fl : Flags) :
  forall (file : Z -> list ReadResult) (d : Z),
    os_Open narrow_env (sourceFile fl) = inr file ->
    Z.of_nat (List.length (file d)) < 2 ^ 63.
Proof.
  intros file d H. inversion H. reflexivity.
Defined.

(** The run on the four lines and the sheet of one column leaves a log of
    four entries: the unparseable line, then the three records, which are
    too wide. *)
Lemma log_created_iff_failure_witness :
  os_Create narrow_env (logFileName "out.xlsx") = None
  /\ returnable four_lines = true
  /\ exists r st',
       main narrow_env (flags_for "Data" "csv" 1) start = (r, st')
       /\ logFile st'
          = Some ("out-errors.log",
                  ["Error reading line: x" ++ nl;
                   "Not appended (too many fields): a,b" ++ nl;
                   "Not appended (too many fields): c,d" ++ nl;
                   "Not appended (too many fields): e,f" ++ nl]).
Proof.
  split; [reflexivity |]. split; [reflexivity |].
  exists (fst (main narrow_env (flags_for "Data" "csv" 1) start)),
         (snd (main narrow_env (flags_for "Data" "csv" 1) start)).
  split; [apply surjective_pairing |].
  destruct (log_created_iff_failure narrow_env (flags_for "Data" "csv" 1) _ _
              eq_refl (narrow_Hlen (flags_for "Data" "csv" 1))
              (surjective_pairing _)) as (_ & _ & H & _).
  rewrite H; [reflexivity | discriminate].
Defined.

(** The run on the four lines for a sheet the workbook does not have. *)
Lemma unknown_sheet_is_fatal_witness :
  List.length (os_Args example_env) <> 1%nat
  /\ delimiter_of "csv" = Some 44
  /\ (os_Create example_env (logFileName "out.xlsx") = None
      \/ failed four_lines = [])
  /\ ~ In "Missing" ["Data"; "Notes"]
  /\ exists st',
       main example_env (flags_for "Missing" "csv" 1) start
       = (Fatal "Sheet 'Missing' does not exist in the template file!", st')
       /\ saved st' = None /\ cells st' = []
       /\ log_lines st' = ["Error reading line: x" ++ nl].
Proof.
  assert (Hsheet : ~ In "Missing" ["Data"; "Notes"]).
  { intros [H | [H | []]]; discriminate H. }
  split; [discriminate |]. split; [reflexivity |].
  split; [left; reflexivity |].
  split; [exact Hsheet |].
  destruct (unknown_sheet_is_fatal example_env (flags_for "Missing" "csv" 1)
              44 (fun _ => four_lines)
              {| GetSheetList := ["Data"; "Notes"];
                 GetSheetIndex := fun _ => inr 0;
                 GetRows := fun _ => inr two_rows;
                 SaveAs := fun _ => None |})
    as (st' & H1 & H2 & H3 & _ & H5 & _);
    [discriminate | repeat split; discriminate | reflexivity | reflexivity
     | reflexivity | left; reflexivity | reflexivity | exact Hsheet |].
  exists st'. split; [exact H1 |]. split; [exact H2 |]. split; [exact H3 |].
  rewrite H5. reflexivity.
Defined.

End RunExamples.

(** ** UTF-8 and the delimiter *)

Section Utf8.

Import utf8.

Lemma land_mask (b : Z) (n : Z) (m : Z) :
  0 <= n -> m = Z.ones n -> Z.land b m = b mod 2 ^ n.
Proof. intros Hn ->. now apply Z.land_ones. Qed.

(** Bits that do not overlap add up. *)
Lemma lor_add (a y n : Z) :
  0 <= n -> a mod 2 ^ n = 0 -> 0 <= y < 2 ^ n -> Z.lor a y = a + y.
Proof.
  intros Hn Ha Hy.
  assert (Hland : Z.land a y = 0).
  { apply Z.bits_inj'. intros i Hi. rewrite Z.land_spec, Z.bits_0.
    destruct (Z.lt_ge_cases i n) as [Hlt | Hge].
    - replace a with (a / 2 ^ n * 2 ^ n)
        by (pose proof (Z.div_mod a (2 ^ n) ltac:(lia)); lia).
      rewrite Z.mul_pow2_bits_low by lia. reflexivity.
    - replace y with (y mod 2 ^ n) by (apply Z.mod_small; lia).
      rewrite Z.mod_pow2_bits_high by lia. apply andb_false_r. }
  rewrite <- (Z.lxor_lor _ _ Hland). symmetry. now apply Z.add_nocarry_lxor.
Qed.

Lemma in_range_spec (lo hi b : Z) :
  in_range lo hi b = true <-> lo <= b <= hi.
Proof. unfold in_range. rewrite andb_true_iff, !Z.leb_le. tauto. Qed.

Lemma in_range_false (lo hi b : Z) :
  in_range lo hi b = false <-> b < lo \/ hi < b.
Proof.
  unfold in_range. rewrite andb_false_iff, !Z.leb_gt. tauto.
Qed.

(** The value of a well-formed sequence, in arithmetic. *)
Lemma value2 (b0 b1 : Z) :
  0xC0 <= b0 <= 0xDF -> 0x80 <= b1 <= 0xBF ->
  Z.lor (Z.shiftl (Z.land b0 0x1F) 6) (Z.land b1 0x3F)
  = (b0 - 0xC0) * 64 + (b1 - 0x80).
Proof.
  intros H0 H1.
  rewrite (land_mask b0 5 0x1F), (land_mask b1 6 0x3F) by (reflexivity || lia).
  rewrite Z.shiftl_mul_pow2 by lia.
  change (2 ^ 5) with 32. change (2 ^ 6) with 64.
  replace (b0 mod 32) with (b0 - 0xC0) by (apply Z.mod_unique_pos with 6; lia).
  replace (b1 mod 64) with (b1 - 0x80) by (apply Z.mod_unique_pos with 2; lia).
  apply (lor_add _ _ 6); [lia | apply Z.mod_mul; lia | change (2 ^ 6) with 64; lia].
Qed.

Lemma value3 (b0 b1 b2 : Z) :
  0xE0 <= b0 <= 0xEF -> 0x80 <= b1 <= 0xBF -> 0x80 <= b2 <= 0xBF ->
  Z.lor (Z.lor (Z.shiftl (Z.land b0 0x0F) 12) (Z.shiftl (Z.land b1 0x3F) 6))
        (Z.land b2 0x3F)
  = (b0 - 0xE0) * 4096 + (b1 - 0x80) * 64 + (b2 - 0x80).
Proof.
  intros H0 H1 H2.
  rewrite (land_mask b0 4 0x0F), (land_mask b1 6 0x3F), (land_mask b2 6 0x3F)
    by (reflexivity || lia).
  rewrite !Z.shiftl_mul_pow2 by lia.
  change (2 ^ 4) with 16. change (2 ^ 6) with 64. change (2 ^ 12) with 4096.
  replace (b0 mod 16) with (b0 - 0xE0) by (apply Z.mod_unique_pos with 14; lia).
  replace (b1 mod 64) with (b1 - 0x80) by (apply Z.mod_unique_pos with 2; lia).
  replace (b2 mod 64) with (b2 - 0x80) by (apply Z.mod_unique_pos with 2; lia).
  rewrite (lor_add ((b0 - 224) * 4096) ((b1 - 128) * 64) 12);
    [| lia | apply Z.mod_mul; lia | change (2 ^ 12) with 4096; lia].
  apply (lor_add _ _ 6); [lia | | change (2 ^ 6) with 64; lia].
  replace ((b0 - 224) * 4096 + (b1 - 128) * 64)
    with (((b0 - 224) * 64 + (b1 - 128)) * 2 ^ 6) by (change (2 ^ 6) with 64; lia).
  apply Z.mod_mul. lia.
Qed.

Lemma value4 (b0 b1 b2 b3 : Z) :
  0xF0 <= b0 <= 0xF7 -> 0x80 <= b1 <= 0xBF -> 0x80 <= b2 <= 0xBF ->
  0x80 <= b3 <= 0xBF ->
  Z.lor (Z.lor (Z.lor (Z.shiftl (Z.land b0 0x07) 18)
                      (Z.shiftl (Z.land b1 0x3F) 12))
               (Z.shiftl (Z.land b2 0x3F) 6))
        (Z.land b3 0x3F)
  = (b0 - 0xF0) * 262144 + (b1 - 0x80) * 4096 + (b2 - 0x80) * 64 + (b3 - 0x80).
Proof.
  intros H0 H1 H2 H3.
  rewrite (land_mask b0 3 0x07), (land_mask b1 6 0x3F), (land_mask b2 6 0x3F),
          (land_mask b3 6 0x3F) by (reflexivity || lia).
  rewrite !Z.shiftl_mul_pow2 by lia.
  change (2 ^ 3) with 8. change (2 ^ 6) with 64. change (2 ^ 12) with 4096.
  change (2 ^ 18) with 262144.
  replace (b0 mod 8) with (b0 - 0xF0) by (apply Z.mod_unique_pos with 30; lia).
  replace (b1 mod 64) with (b1 - 0x80) by (apply Z.mod_unique_pos with 2; lia).
  replace (b2 mod 64) with (b2 - 0x80) by (apply Z.mod_unique_pos with 2; lia).
  replace (b3 mod 64) with (b3 - 0x80) by (apply Z.mod_unique_pos with 2; lia).
  rewrite (lor_add ((b0 - 240) * 262144) ((b1 - 128) * 4096) 18);
    [| lia | apply Z.mod_mul; lia | change (2 ^ 18) with 262144; lia].
  rewrite (lor_add ((b0 - 240) * 262144 + (b1 - 128) * 4096) ((b2 - 128) * 64) 12);
    [| lia | | change (2 ^ 12) with 4096; lia].
  2:{ replace ((b0 - 240) * 262144 + (b1 - 128) * 4096)
        with (((b0 - 240) * 64 + (b1 - 128)) * 2 ^ 12)
        by (change (2 ^ 12) with 4096; lia).
      apply Z.mod_mul. lia. }
  apply (lor_add _ _ 6); [lia | | change (2 ^ 6) with 64; lia].
  replace ((b0 - 240) * 262144 + (b1 - 128) * 4096 + (b2 - 128) * 64)
    with (((b0 - 240) * 4096 + (b1 - 128) * 64 + (b2 - 128)) * 2 ^ 6)
    by (change (2 ^ 6) with 64; lia).
  apply Z.mod_mul. lia.
Qed.

Ltac decide_tests :=
  repeat match goal with
    | |- context [?a =? ?b] =>
        destruct (Z.eqb_spec a b); try (exfalso; lia)
    | |- context [in_range ?lo ?hi ?b] =>
        let E := fresh "E" in
        destruct (in_range lo hi b) eqn:E;
        [apply in_range_spec in E | apply in_range_false in E];
        try (exfalso; lia)
    | |- context [?a <? ?b] =>
        destruct (Z.ltb_spec a b); try (exfalso; lia)
    end;
  cbn [andb].

Lemma ValidRune_spec (r : Z) :
  ValidRune r = true <-> 0 <= r <= 0xD7FF \/ 0xE000 <= r <= 0x10FFFF.
Proof.
  unfold ValidRune, MaxRune. rewrite orb_true_iff, !in_range_spec. tauto.
Qed.

(** Decoding the encoding of a scalar value gives the value back and
    takes all the bytes. *)
Lemma decode_encode (r : Z) (t : list Z) :
  ValidRune r = true ->
  DecodeRune (encode r ++ t) = (r, List.length (encode r)).
Proof.
  intros Hv. apply ValidRune_spec in Hv. unfold encode.
  pose proof (Z.div_mod r 64 ltac:(lia)) as D1.
  pose proof (Z.mod_pos_bound r 64 ltac:(lia)) as M1.
  pose proof (Z.div_mod (r / 64) 64 ltac:(lia)) as D2.
  pose proof (Z.mod_pos_bound (r / 64) 64 ltac:(lia)) as M2.
  pose proof (Z.div_mod (r / 64 / 64) 64 ltac:(lia)) as D3.
  pose proof (Z.mod_pos_bound (r / 64 / 64) 64 ltac:(lia)) as M3.
  assert (Q2 : r / 4096 = r / 64 / 64) by (rewrite Z.div_div by lia; reflexivity).
  assert (Q3 : r / 262144 = r / 64 / 64 / 64)
    by (rewrite !Z.div_div by lia; reflexivity).
  rewrite Q2, Q3. clear Q2 Q3.
  set (c := r mod 64) in *. set (q1 := r / 64) in *.
  set (b := q1 mod 64) in *. set (q2 := q1 / 64) in *.
  set (a := q2 mod 64) in *. set (q3 := q2 / 64) in *.
  clearbody c q1 b q2 a q3.
  destruct (Z.ltb_spec r 0x80); [| destruct (Z.ltb_spec r 0x800);
                                    [| destruct (Z.ltb_spec r 0x10000)]].
  - cbn [app DecodeRune List.length]. decide_tests. reflexivity.
  - cbn [app DecodeRune List.length]. unfold cont. decide_tests.
    rewrite value2 by lia. f_equal. lia.
  - cbn [app DecodeRune List.length]. unfold cont. decide_tests;
      rewrite value3 by lia; f_equal; lia.
  - cbn [app DecodeRune List.length]. unfold cont. decide_tests;
      rewrite value4 by lia; f_equal; lia.
Qed.

Lemma decode_size (b0 : Z) (t : list Z) :
  (1 <= snd (DecodeRune (b0 :: t)) <= S (List.length t))%nat.
Proof.
  unfold DecodeRune, cont.
  destruct t as [| b1 [| b2 [| b3 t3]]];
    repeat match goal with
      | |- context [if ?c then _ else _] => destruct c
      end; cbn [snd List.length]; lia.
Qed.

Lemma rune_count_from_nonneg (p : list Z) :
  forall k, 0 <= rune_count_from k p.
Proof.
  induction p as [| b t IH]; intros k; cbn [rune_count_from]; [lia |].
  destruct k; [| apply IH].
  specialize (IH (snd (DecodeRune (b :: t)) - 1)%nat). lia.
Qed.

Lemma rune_count_from_zero (p : list Z) :
  forall k, rune_count_from k p = 0 <-> (List.length p <= k)%nat.
Proof.
  induction p as [| b t IH]; intros k; cbn [rune_count_from List.length].
  - split; [lia | reflexivity].
  - destruct k.
    + pose proof (rune_count_from_nonneg t (snd (DecodeRune (b :: t)) - 1)).
      split; lia.
    + rewrite IH. lia.
Qed.

(** A string counts for one rune exactly when its first rune takes all
    its bytes. *)
Lemma RuneCount_one (p : list Z) :
  RuneCount p = 1 <-> p <> [] /\ snd (DecodeRune p) = List.length p.
Proof.
  unfold RuneCount. destruct p as [| b t].
  - cbn. split; [discriminate | intros [H _]; contradiction].
  - cbn [rune_count_from List.length].
    pose proof (decode_size b t) as Hs.
    pose proof (rune_count_from_zero t (snd (DecodeRune (b :: t)) - 1)) as Hz.
    split.
    + intros H. split; [discriminate |].
      assert (Hc : rune_count_from (snd (DecodeRune (b :: t)) - 1) t = 0) by lia.
      apply Hz in Hc. lia.
    + intros [_ H]. assert ((List.length t <= snd (DecodeRune (b :: t)) - 1)%nat) by lia.
      apply Hz in H0. lia.
Qed.

(** A byte sequence that is taken whole by its first rune is the encoding
    of a scalar value, or one byte that cannot stand alone. *)
Lemma decode_whole (p : list Z) :
  Forall is_byte p -> p <> [] ->
  snd (DecodeRune p) = List.length p ->
  (ValidRune (fst (DecodeRune p)) = true /\ p = encode (fst (DecodeRune p)))
  \/ (exists b, p = [b] /\ 0x80 <= b /\ fst (DecodeRune p) = RuneError).
Proof.
  intros Hb Hne. destruct p as [| b0 t]; [contradiction |]. clear Hne.
  assert (H0 : 0 <= b0) by (inversion Hb; subst; unfold is_byte in *; lia).
  clear Hb. unfold DecodeRune, cont.
  destruct t as [| b1 [| b2 [| b3 [| b4 t4]]]]; decide_tests;
    cbn [fst snd List.length]; intros Hsize; try discriminate Hsize;
    try (right; eexists; repeat split; lia).
  all: left; rewrite ?ValidRune_spec.
  all: try (rewrite value2 by lia); try (rewrite value3 by lia);
       try (rewrite value4 by lia).
  all: unfold encode.
  all: match goal with
       | |- _ /\ _ = (if ?r <? _ then _ else _) =>
           pose proof (Z.div_mod r 64 ltac:(lia));
           pose proof (Z.mod_pos_bound r 64 ltac:(lia));
           pose proof (Z.div_mod (r / 64) 64 ltac:(lia));
           pose proof (Z.mod_pos_bound (r / 64) 64 ltac:(lia));
           pose proof (Z.div_mod (r / 64 / 64) 64 ltac:(lia));
           pose proof (Z.mod_pos_bound (r / 64 / 64) 64 ltac:(lia));
           replace (r / 4096) with (r / 64 / 64)
             by (rewrite Z.div_div by lia; reflexivity);
           replace (r / 262144) with (r / 64 / 64 / 64)
             by (rewrite !Z.div_div by lia; reflexivity);
           generalize dependent (r mod 64); generalize dependent (r / 64 mod 64);
           generalize dependent (r / 64 / 64 mod 64);
           generalize dependent (r / 64 / 64 / 64);
           generalize dependent (r / 64 / 64); generalize dependent (r / 64);
           intros
       end.
  all: decide_tests.
  all: split; [lia | repeat f_equal; lia].
Qed.

(** *** The delimiter flag *)

Lemma bytes_are_bytes (s : string) : Forall is_byte (bytes s).
Proof.
  unfold bytes. apply Forall_forall. intros b Hb.
  apply in_map_iff in Hb as (c & <- & _).
  pose proof (N_ascii_bounded c). unfold is_byte. lia.
Qed.

Lemma of_bytes_bytes (s : string) : of_bytes (bytes s) = s.
Proof.
  unfold of_bytes, bytes. rewrite map_map.
  rewrite <- (string_of_list_ascii_of_string s) at 2. f_equal.
  rewrite <- (map_id (list_ascii_of_string s)) at 2.
  apply map_ext. intros c. rewrite N2Z.id. apply ascii_N_embedding.
Qed.

Lemma bytes_of_bytes (p : list Z) : Forall is_byte p -> bytes (of_bytes p) = p.
Proof.
  intros Hp. unfold of_bytes, bytes.
  rewrite list_ascii_of_string_of_list_ascii, map_map.
  rewrite <- (map_id p) at 2. apply map_ext_in. intros b Hb.
  rewrite Forall_forall in Hp. specialize (Hp b Hb). unfold is_byte in Hp.
  rewrite N_ascii_embedding by lia. lia.
Qed.

Lemma encode_bytes (r : Z) : ValidRune r = true -> Forall is_byte (encode r).
Proof.
  intros Hv. apply ValidRune_spec in Hv. unfold encode, is_byte.
  pose proof (Z.div_mod r 64 ltac:(lia)).
  pose proof (Z.mod_pos_bound r 64 ltac:(lia)).
  pose proof (Z.mod_pos_bound (r / 64) 64 ltac:(lia)).
  pose proof (Z.mod_pos_bound (r / 4096) 64 ltac:(lia)).
  pose proof (Z.div_mod r 4096 ltac:(lia)).
  pose proof (Z.mod_pos_bound r 4096 ltac:(lia)).
  pose proof (Z.div_mod r 262144 ltac:(lia)).
  pose proof (Z.mod_pos_bound r 262144 ltac:(lia)).
  decide_tests; repeat apply Forall_cons; try apply Forall_nil; lia.
Qed.

Lemma encode_not_ascii3 (r a b c : Z) :
  ValidRune r = true -> a < 0x80 -> encode r <> [a; b; c].
Proof.
  intros Hv Ha. apply ValidRune_spec in Hv. unfold encode.
  pose proof (Z.div_mod r 4096 ltac:(lia)).
  pose proof (Z.mod_pos_bound r 4096 ltac:(lia)).
  decide_tests; intros E; try discriminate E. apply (f_equal (hd 0)) in E. cbn [hd] in E. lia.
Qed.

Lemma RuneCount_encode (r : Z) :
  ValidRune r = true ->
  RuneCount (encode r) = 1 /\ fst (DecodeRune (encode r)) = r.
Proof.
  intros Hv. pose proof (decode_encode r [] Hv) as Hd.
  rewrite app_nil_r in Hd. split.
  - apply RuneCount_one. rewrite Hd. split; [| reflexivity].
    unfold encode. decide_tests; discriminate.
  - now rewrite Hd.
Qed.

(** C9, amended: [csv] stands for the comma and [tab] for the tab.  Any
    other token that is the encoding of one code point stands for that
    code point, whatever the number of its bytes.  A token of one byte
    that is not an encoding on its own stands for U+FFFD.  Every other
    token is fatal, with a message that names the token. *)
Theorem delimiter_resolution (st : Run) :
  resolve_delimiter "csv" st = (Ok 44, st)
  /\ resolve_delimiter "tab" st = (Ok 9, st)
  /\ bytes "," = [44] /\ bytes tab = [9]
  /\ (forall r : Z,
        ValidRune r = true ->
        resolve_delimiter (of_bytes (encode r)) st = (Ok r, st))
  /\ (forall b : Z,
        0x80 <= b < 256 ->
        resolve_delimiter (of_bytes [b]) st = (Ok RuneError, st))
  /\ (forall token : string,
        token <> "csv" -> token <> "tab" ->
        (forall r : Z, ValidRune r = true -> bytes token <> encode r) ->
        (forall b : Z, 0x80 <= b -> bytes token <> [b]) ->
        resolve_delimiter token st
        = (Fatal ("Invalid delimiter: " ++ token), st)).
Proof.
  split; [reflexivity |]. split; [reflexivity |].
  split; [reflexivity |]. split; [reflexivity |].
  split; [| split].
  - intros r Hv. unfold resolve_delimiter, RuneCountInString, DecodeRuneInString.
    pose proof (bytes_of_bytes _ (encode_bytes r Hv)) as Hb.
    destruct (String.eqb_spec (of_bytes (encode r)) "csv") as [E | _].
    { rewrite E in Hb. cbn in Hb. symmetry in Hb.
      now apply encode_not_ascii3 in Hb. }
    destruct (String.eqb_spec (of_bytes (encode r)) "tab") as [E | _].
    { rewrite E in Hb. cbn in Hb. symmetry in Hb.
      now apply encode_not_ascii3 in Hb. }
    rewrite Hb. destruct (RuneCount_encode r Hv) as [-> ->]. reflexivity.
  - intros b Hb. unfold resolve_delimiter, RuneCountInString, DecodeRuneInString.
    rewrite (bytes_of_bytes [b]) by (apply Forall_cons; [unfold is_byte; lia | apply Forall_nil]).
    destruct (String.eqb_spec (of_bytes [b]) "csv") as [E | _]; [discriminate E |].
    destruct (String.eqb_spec (of_bytes [b]) "tab") as [E | _]; [discriminate E |].
    assert (Hd : DecodeRune [b] = (RuneError, 1%nat)).
    { unfold DecodeRune. decide_tests; reflexivity. }
    unfold RuneCount. cbn [rune_count_from]. rewrite Hd. reflexivity.
  - intros token Hcsv Htab Hone Hbad. unfold resolve_delimiter.
    destruct (String.eqb_spec token "csv") as [E | _]; [contradiction |].
    destruct (String.eqb_spec token "tab") as [E | _]; [contradiction |].
    unfold RuneCountInString.
    destruct (Z.eqb_spec (RuneCount (bytes token)) 1) as [E | _]; [| reflexivity].
    exfalso. apply RuneCount_one in E as [Hne Hs].
    destruct (decode_whole _ (bytes_are_bytes token) Hne Hs)
      as [[Hv He] | (b & Hb & Hge & _)].
    + exact (Hone _ Hv He).
    + exact (Hbad b Hge Hb).
Qed.

(** The token of the one byte 255 is not [csv], not [tab] and not the
    encoding of a code point, and it is accepted; the separator it stands
    for, U+FFFD, is written with three other bytes. *)
Lemma invalid_byte_is_accepted :
  resolve_delimiter (of_bytes [255]) start = (Ok 0xFFFD, start)
  /\ of_bytes [255] <> "csv" /\ of_bytes [255] <> "tab"
  /\ (forall r : Z, ValidRune r = true -> bytes (of_bytes [255]) <> encode r)
  /\ bytes (string_of_rune 0xFFFD) = [0xEF; 0xBF; 0xBD].
Proof.
  split; [reflexivity |]. split; [discriminate |]. split; [discriminate |].
  split; [| reflexivity].
  intros r Hv E. pose proof (RuneCount_encode r Hv) as [_ Hd].
  rewrite <- E in Hd. cbn in Hd. subst r. cbn in E. discriminate E.
Qed.

End Utf8.

(** * Further properties of the program *)

(** ** What the loops leave alone *)

Section Frames.

Variable env : Env.
Variable name : string.

Ltac conjs := repeat match goal with |- _ /\ _ => split end.

Lemma open_log_cases (st : Run) :
  (hasErrors st = true /\ open_log env name st = (Ok tt, st))
  \/ (hasErrors st = false /\ os_Create env name = None
      /\ open_log env name st
         = (Ok tt, set_logFile (Some (name, [])) (set_hasErrors true st)))
  \/ (hasErrors st = false
      /\ exists err, os_Create env name = Some err
           /\ open_log env name st
              = (Fatal ("Failed to create error log file: " ++ err),
                 set_hasErrors true st)).
Proof.
  unfold open_log. destruct (hasErrors st) eqn:Eh; [now left | right].
  destruct (os_Create env name) as [err |]; [right | left]; split; auto.
  exists err. now split.
Qed.

Lemma inv_created (st : Run) :
  log_invariant name (set_logFile (Some (name, [])) (set_hasErrors true st)).
Proof.
  split; cbn; [discriminate |]. intros path written E. inversion E. now split.
Qed.

Lemma inv_not_created (st : Run) :
  log_invariant name st -> hasErrors st = false ->
  log_invariant name (set_hasErrors true st).
Proof.
  intros [I1 I2] Eh. destruct (I1 Eh) as (El & _).
  split; cbn; [discriminate |]. rewrite El. discriminate.
Qed.

Lemma inv_written (s : string) (st : Run) :
  log_invariant name st -> hasErrors st = true ->
  log_invariant name
    match logFile st with
    | Some (path, written) => set_logFile (Some (path, (written ++ [s])%list)) st
    | None => st
    end.
Proof.
  intros I Eh. destruct (logFile st) as [[p w] |] eqn:El; [| exact I].
  destruct I as [I1 I2].
  split; cbn; [rewrite Eh; discriminate |].
  intros path written E. inversion E; subst. apply (I2 _ _ El).
Qed.

Lemma inv_counted (f : Run -> Run) (st : Run) :
  hasErrors (f st) = hasErrors st -> logFile (f st) = logFile st ->
  log_invariant name st -> hasErrors st = true ->
  log_invariant name (f st).
Proof.
  intros Hh Hl [I1 I2] Eh. split; rewrite ?Hh, ?Hl; [rewrite Eh; discriminate | exact I2].
Qed.

Lemma written_hasErrors (s : string) (st : Run) :
  hasErrors match logFile st with
            | Some (path, written) =>
                set_logFile (Some (path, (written ++ [s])%list)) st
            | None => st
            end = hasErrors st.
Proof. destruct (logFile st) as [[p w] |]; reflexivity. Qed.

(** The reading loop touches the log, [hasErrors] and the count of errors,
    and nothing else; it keeps the invariant of the log. *)
Lemma read_loop_frame (delim startRow : Z) (reader : list ReadResult) :
  forall (v : Ingest) (st : Run) (r : Result Ingest) (st' : Run),
    read_loop env name delim startRow reader v st = (r, st') ->
    notAppendedCount st' = notAppendedCount st /\ active st' = active st
    /\ cells st' = cells st /\ saved st' = saved st /\ stdout st' = stdout st
    /\ (log_invariant name st -> log_invariant name st').
Proof.
  induction reader as [| [record | record] rest IH]; intros v st r st' H.
  - inversion H; subst. conjs; auto.
  - cbn [read_loop] in H. now apply IH in H.
  - cbn [read_loop] in H. unfold bind at 1 in H.
    destruct (open_log_cases st) as [[Eh Ho] | [(Eh & Ec & Ho) | (Eh & err & Ec & Ho)]];
      rewrite Ho in H.
    + unfold WriteString at 1, modify at 1 2 in H. unfold bind at 1 2 in H.
      apply IH in H. destruct H as (H1 & H2 & H3 & H4 & H5 & H6).
      conjs.
      * rewrite H1. destruct (logFile st) as [[p w] |]; reflexivity.
      * rewrite H2. destruct (logFile st) as [[p w] |]; reflexivity.
      * rewrite H3. destruct (logFile st) as [[p w] |]; reflexivity.
      * rewrite H4. destruct (logFile st) as [[p w] |]; reflexivity.
      * rewrite H5. destruct (logFile st) as [[p w] |]; reflexivity.
      * intros I. apply H6. apply inv_counted; try reflexivity.
        -- now apply inv_written.
        -- now rewrite written_hasErrors.
    + unfold WriteString at 1, modify at 1 2 in H. unfold bind at 1 2 in H.
      apply IH in H. destruct H as (H1 & H2 & H3 & H4 & H5 & H6).
      cbn in *. conjs; auto.
      intros _. apply H6.
      apply (inv_counted (set_errorCount _)); try reflexivity.
      split; cbn; [discriminate |]. intros path written E. inversion E. now split.
    + inversion H; subst. conjs; auto. intros I. now apply inv_not_created.
Qed.

(** The appending loop touches the log, [hasErrors], the count of
    rejected records and the cells, and nothing else; it keeps the
    invariant of the log. *)
Lemma append_loop_frame (sheet : string) (delim maxCols nextRow : Z)
    (data : list (list string)) :
  forall (i : Z) (st : Run) (r : Result unit) (st' : Run),
    append_loop env name sheet delim maxCols nextRow i data st = (r, st') ->
    errorCount st' = errorCount st /\ active st' = active st
    /\ saved st' = saved st /\ stdout st' = stdout st
    /\ (log_invariant name st -> log_invariant name st').
Proof.
  induction data as [| row rest IH]; intros i st r st' H.
  - inversion H; subst. conjs; auto.
  - cbn [append_loop] in H.
    destruct (Z.of_nat (List.length row) >? maxCols).
    + unfold bind at 1 in H.
      destruct (open_log_cases st) as [[Eh Ho] | [(Eh & Ec & Ho) | (Eh & err & Ec & Ho)]];
        rewrite Ho in H.
      * unfold WriteString at 1, modify at 1 2 in H. unfold bind at 1 2 in H.
        apply IH in H. destruct H as (H1 & H2 & H3 & H4 & H5).
        conjs.
        -- rewrite H1. destruct (logFile st) as [[p w] |]; reflexivity.
        -- rewrite H2. destruct (logFile st) as [[p w] |]; reflexivity.
        -- rewrite H3. destruct (logFile st) as [[p w] |]; reflexivity.
        -- rewrite H4. destruct (logFile st) as [[p w] |]; reflexivity.
        -- intros I. apply H5. apply inv_counted; try reflexivity.
           ++ now apply inv_written.
           ++ now rewrite written_hasErrors.
      * unfold WriteString at 1, modify at 1 2 in H. unfold bind at 1 2 in H.
        apply IH in H. destruct H as (H1 & H2 & H3 & H4 & H5).
        cbn in *. conjs; auto.
        intros _. apply H5.
        apply (inv_counted (set_notAppendedCount _)); try reflexivity.
        split; cbn; [discriminate |]. intros path written E. inversion E. now split.
      * inversion H; subst. conjs; auto. intros I. now apply inv_not_created.
    + unfold modify at 1 in H. unfold bind at 1 in H.
      apply IH in H. destruct H as (H1 & H2 & H3 & H4 & H5).
      conjs; auto.
Qed.

End Frames.

(** ** What every run keeps *)

Section Always.

Variable env : Env.
Variable fl : Flags.

Lemma log_invariant_start (name : string) : log_invariant name start.
Proof. split; cbn; [auto | discriminate]. Qed.

Lemma main_always (r : Result unit) (st' : Run) :
  main env fl start = (r, st') ->
  log_invariant (logFileName (outputFile fl)) st'
  /\ (r = Ok tt <-> saved st' = Some (outputFile fl))
  /\ (r <> Ok tt -> saved st' = None).
Proof.
  set (name := logFileName (outputFile fl)).
  assert (Hstop : forall (res : Result unit) (st : Run),
    res <> Ok tt -> log_invariant name st -> saved st = None ->
    (res, st) = (r, st') ->
    log_invariant name st'
    /\ (r = Ok tt <-> saved st' = Some (outputFile fl))
    /\ (r <> Ok tt -> saved st' = None)).
  { intros res st Hres I Hs E. inversion E; subst. rewrite Hs.
    split; [exact I |]. split; [split; [contradiction | discriminate] | reflexivity]. }
  unfold main.
  destruct (List.length (os_Args env) =? 1)%nat.
  { destruct (Usage_state env start) as [out Hu].
    rewrite (bind_Ok _ _ _ _ _ Hu). unfold exit.
    apply Hstop; [discriminate | apply (log_invariant_start name) | reflexivity]. }
  destruct (String.eqb (sourceFile fl) "" || String.eqb (templateFile fl) ""
            || String.eqb (outputFile fl) "" || String.eqb (sheetName fl) "").
  { destruct (Usage_state env start) as [out Hu].
    rewrite (bind_Ok _ _ _ _ _ Hu). unfold fatal.
    apply Hstop; [discriminate | apply (log_invariant_start name) | reflexivity]. }
  unfold bind at 1. rewrite resolve_delimiter_state.
  destruct (delimiter_of (delimiter fl)) as [delim |];
    [| apply Hstop; [discriminate | apply log_invariant_start | reflexivity]].
  destruct (os_Open env (sourceFile fl)) as [err | file];
    [apply Hstop; [discriminate | apply log_invariant_start | reflexivity] |].
  fold name. unfold bind at 1.
  destruct (read_loop env name delim (startRow fl) (file delim)
              {| lineNumber := 0; csvData := [] |} start)
    as [[v | msg | c] st1] eqn:E1;
    apply read_loop_frame in E1;
    destruct E1 as (R1 & R2 & R3 & R4 & R5 & R6);
    specialize (R6 (log_invariant_start name)).
  2:{ apply Hstop; auto. discriminate. }
  2:{ apply Hstop; auto. discriminate. }
  destruct (excelize_OpenFile env (templateFile fl)) as [err | f];
    [apply Hstop; auto; discriminate |].
  destruct (negb (existsb (fun n => String.eqb n (sheetName fl)) (GetSheetList f)));
    [apply Hstop; auto; discriminate |].
  destruct (GetSheetIndex f (sheetName fl)) as [err | sheetIndex];
    [apply Hstop; auto; discriminate |].
  unfold modify at 1. unfold bind at 1.
  destruct (GetRows f (sheetName fl)) as [err | rows];
    [apply Hstop; auto; discriminate |].
  unfold bind at 1.
  destruct (append_loop env name (sheetName fl) delim (maxCols_of rows)
              (nextRow_of rows) 0 (csvData v)
              (set_active (Some sheetIndex) st1))
    as [[[] | msg | c] st2] eqn:E2;
    apply append_loop_frame in E2;
    destruct E2 as (A1 & A2 & A3 & A4 & A5);
    specialize (A5 R6); cbn [saved set_active] in A3.
  2:{ apply Hstop; auto; [discriminate | now rewrite A3]. }
  2:{ apply Hstop; auto; [discriminate | now rewrite A3]. }
  destruct (SaveAs f (outputFile fl)) as [err |];
    [apply Hstop; auto; [discriminate | now rewrite A3] |].
  unfold modify at 1. unfold bind at 1. unfold print at 1, modify at 1.
  unfold bind at 1. unfold get at 1. unfold bind at 1.
  cbn [hasErrors set_stdout set_saved].
  destruct (hasErrors st2).
  - unfold get at 1. unfold bind at 1. unfold print, modify.
    intros H; inversion H; subst. cbn [saved set_stdout set_saved].
    split; [exact A5 |]. split; [tauto | intros H0; now elim H0].
  - unfold ret. intros H; inversion H; subst. cbn [saved set_stdout set_saved].
    split; [exact A5 |]. split; [tauto | intros H0; now elim H0].
Qed.

(** X1: the output file is saved by the runs that end normally and by no
    other: a run that ends with a fatal error or with the usage text has
    saved nothing, whatever the environment does. *)
Theorem output_saved_only_on_success :
  (fst (main env fl start) = Ok tt
   <-> saved (snd (main env fl start)) = Some (outputFile fl))
  /\ (fst (main env fl start) <> Ok tt
      -> saved (snd (main env fl start)) = None).
Proof.
  destruct (main env fl start) as [r st'] eqn:E.
  exact (proj2 (main_always r st' E)).
Qed.

(** X2: at the end of every run, a log that exists has the name made from
    the output file and [hasErrors] is set; and when [hasErrors] is unset
    there is no log and both counters are zero. *)
Theorem log_and_counters_agree :
  let st' := snd (main env fl start) in
  (hasErrors st' = false ->
   logFile st' = None /\ errorCount st' = 0 /\ notAppendedCount st' = 0)
  /\ (forall path written,
        logFile st' = Some (path, written) ->
        path = logFileName (outputFile fl) /\ hasErrors st' = true).
Proof.
  destruct (main env fl start) as [r st'] eqn:E.
  exact (proj1 (main_always r st' E)).
Qed.

End Always.

(** ** What the cells hold and where they go *)

Section CellsWritten.

Variable env : Env.
Variable name : string.

(** The records the reading loop adds are sanitized records. *)
Lemma read_loop_data (P : list string -> Prop) (delim startRow : Z)
    (reader : list ReadResult) :
  (forall record, P (sanitize_record record)) ->
  forall (v : Ingest) (st : Run) (v' : Ingest) (st' : Run),
    read_loop env name delim startRow reader v st = (Ok v', st') ->
    Forall P (csvData v) -> Forall P (csvData v').
Proof.
  intros HP.
  induction reader as [| [record | record] rest IH]; intros v st v' st' H Hv.
  - inversion H; subst. exact Hv.
  - cbn [read_loop] in H. apply IH in H; [exact H |]. cbn [csvData].
    destruct (int_wrap (startRow - 1) <=? lineNumber v); [| exact Hv].
    apply Forall_app. split; [exact Hv |]. constructor; [apply HP | constructor].
  - cbn [read_loop] in H. unfold bind at 1 in H.
    destruct (open_log env name st) as [[[] | msg | c] st1]; try discriminate H.
    unfold WriteString at 1, modify at 1 2 in H. unfold bind at 1 2 in H.
    now apply IH in H.
Qed.

Lemma row_cells_Forall (P : CellWrite -> Prop) (sheet : string)
    (nextRow i : Z) (row : list string) :
  forall j : Z,
    (forall (k : Z) (value : string),
        j < k <= j + Z.of_nat (List.length row) -> In value row ->
        P {| cw_sheet := sheet; cw_col := k; cw_row := nextRow + i;
             cw_value := value |}) ->
    Forall P (row_cells sheet nextRow i j row).
Proof.
  induction row as [| value rest IH]; intros j H; [constructor |].
  cbn [row_cells]. constructor.
  - apply H; [cbn [List.length]; lia | now left].
  - apply IH. intros k v Hk Hin. apply H; [cbn [List.length]; lia | now right].
Qed.

(** Each cell the appending loop writes is on the sheet, in the row of
    its record and in a column the sheet has, and holds a field of a
    record; this holds of the cells written before a fatal error too. *)
Lemma append_loop_cells (P : string -> Prop) (sheet : string)
    (delim maxCols nextRow : Z) (data : list (list string)) :
  forall (i : Z) (st : Run) (r : Result unit) (st' : Run),
    append_loop env name sheet delim maxCols nextRow i data st = (r, st') ->
    Forall (Forall P) data ->
    exists added,
      cells st' = (cells st ++ added)%list
      /\ Forall (fun c => cw_sheet c = sheet
                          /\ nextRow + i <= cw_row c
                             < nextRow + i + Z.of_nat (List.length data)
                          /\ 1 <= cw_col c <= maxCols
                          /\ P (cw_value c)) added.
Proof.
  induction data as [| row rest IH]; intros i st r st' H HP.
  - inversion H; subst. exists []. split; [now rewrite app_nil_r | constructor].
  - inversion HP as [| ? ? Prow Prest]; subst. cbn [append_loop] in H.
    assert (Hweak : forall added,
      Forall (fun c => cw_sheet c = sheet
                /\ nextRow + (i + 1) <= cw_row c
                   < nextRow + (i + 1) + Z.of_nat (List.length rest)
                /\ 1 <= cw_col c <= maxCols /\ P (cw_value c)) added ->
      Forall (fun c => cw_sheet c = sheet
                /\ nextRow + i <= cw_row c
                   < nextRow + i + Z.of_nat (List.length (row :: rest))
                /\ 1 <= cw_col c <= maxCols /\ P (cw_value c)) added).
    { intros added Ha. eapply Forall_impl; [| exact Ha].
      cbn [List.length]. intros c (H1 & H2 & H3). repeat split; try tauto; lia. }
    destruct (Z.of_nat (List.length row) >? maxCols) eqn:Ew.
    + unfold bind at 1 in H.
      destruct (open_log_cases env name st)
        as [[Eh Ho] | [(Eh & Ec & Ho) | (Eh & err & Ec & Ho)]]; rewrite Ho in H.
      * unfold WriteString at 1, modify at 1 2 in H. unfold bind at 1 2 in H.
        destruct (IH _ _ _ _ H Prest) as (added & Hc & Ha).
        exists added. split; [| now apply (Hweak added)].
        rewrite Hc. destruct (logFile st) as [[p w] |]; reflexivity.
      * unfold WriteString at 1, modify at 1 2 in H. unfold bind at 1 2 in H.
        destruct (IH _ _ _ _ H Prest) as (added & Hc & Ha).
        exists added. split; [exact Hc | now apply (Hweak added)].
      * inversion H; subst. exists []. split; [now rewrite app_nil_r | constructor].
    + unfold modify at 1 in H. unfold bind at 1 in H.
      destruct (IH _ _ _ _ H Prest) as (added & Hc & Ha).
      exists (row_cells sheet nextRow i 0 row ++ added)%list.
      split; [rewrite Hc; cbn; now rewrite app_assoc |].
      apply Forall_app. split; [| now apply (Hweak added)].
      apply row_cells_Forall. intros k value Hk Hin. cbn.
      rewrite Z.gtb_ltb in Ew. apply Z.ltb_ge in Ew.
      rewrite Forall_forall in Prow.
      split; [reflexivity |]. split; [cbn [List.length]; lia |].
      split; [lia | now apply Prow].
Qed.

Lemma sanitize_record_no_quote (record : list string) :
  Forall no_quote (sanitize_record record).
Proof.
  unfold sanitize_record. apply Forall_forall. intros s Hs.
  apply in_map_iff in Hs as (s0 & <- & _). apply sanitize_no_quote.
Qed.

End CellsWritten.

Section CellsOfRun.

Variable env : Env.

(** The cells of a run, whatever its end. *)
Lemma main_cells (fl : Flags) (r : Result unit) (st' : Run) :
  main env fl start = (r, st') ->
  Forall (fun c => no_quote (cw_value c)) (cells st')
  /\ forall f rows,
       excelize_OpenFile env (templateFile fl) = inr f ->
       GetRows f (sheetName fl) = inr rows ->
       Forall (appended_cell (sheetName fl) (Z.of_nat (List.length rows))
                             (maxCols_of rows)) (cells st').
Proof.
  assert (Hnone : forall (res : Result unit) (st : Run),
    cells st = [] -> (res, st) = (r, st') ->
    Forall (fun c => no_quote (cw_value c)) (cells st')
    /\ forall f rows,
         excelize_OpenFile env (templateFile fl) = inr f ->
         GetRows f (sheetName fl) = inr rows ->
         Forall (appended_cell (sheetName fl) (Z.of_nat (List.length rows))
                               (maxCols_of rows)) (cells st')).
  { intros res st Hc E. inversion E; subst. rewrite Hc. split; [constructor |].
    intros. constructor. }
  unfold main.
  destruct (List.length (os_Args env) =? 1)%nat.
  { destruct (Usage_state env start) as [out Hu].
    rewrite (bind_Ok _ _ _ _ _ Hu). unfold exit. now apply Hnone. }
  destruct (String.eqb (sourceFile fl) "" || String.eqb (templateFile fl) ""
            || String.eqb (outputFile fl) "" || String.eqb (sheetName fl) "").
  { destruct (Usage_state env start) as [out Hu].
    rewrite (bind_Ok _ _ _ _ _ Hu). unfold fatal. now apply Hnone. }
  unfold bind at 1. rewrite resolve_delimiter_state.
  destruct (delimiter_of (delimiter fl)) as [delim |]; [| now apply Hnone].
  destruct (os_Open env (sourceFile fl)) as [err | file]; [now apply Hnone |].
  unfold bind at 1.
  destruct (read_loop env (logFileName (outputFile fl)) delim (startRow fl)
              (file delim) {| lineNumber := 0; csvData := [] |} start)
    as [[v | msg | c] st1] eqn:E1.
  2:{ apply read_loop_frame in E1. apply Hnone. now destruct E1 as (_ & _ & -> & _). }
  2:{ apply read_loop_frame in E1. apply Hnone. now destruct E1 as (_ & _ & -> & _). }
  pose proof (read_loop_frame _ _ _ _ _ _ _ _ _ E1) as (_ & _ & R3 & _).
  cbn [cells start] in R3.
  assert (Hdata : Forall (Forall no_quote) (csvData v)).
  { eapply (read_loop_data _ _ (Forall no_quote)); [| exact E1 | constructor].
    apply sanitize_record_no_quote. }
  destruct (excelize_OpenFile env (templateFile fl)) as [err | f];
    [now apply Hnone |].
  destruct (negb (existsb (fun n => String.eqb n (sheetName fl)) (GetSheetList f)));
    [now apply Hnone |].
  destruct (GetSheetIndex f (sheetName fl)) as [err | sheetIndex];
    [now apply Hnone |].
  unfold modify at 1. unfold bind at 1.
  destruct (GetRows f (sheetName fl)) as [err | rows] eqn:Erows; [now apply Hnone |].
  unfold bind at 1.
  destruct (append_loop env (logFileName (outputFile fl)) (sheetName fl) delim
              (maxCols_of rows) (nextRow_of rows) 0 (csvData v)
              (set_active (Some sheetIndex) st1))
    as [res st2] eqn:E2.
  destruct (append_loop_cells _ _ no_quote _ _ _ _ _ _ _ _ _ E2 Hdata)
    as (added & Hc & Ha).
  cbn [cells set_active] in Hc. rewrite R3 in Hc. cbn [app] in Hc.
  assert (Hfin : forall (res' : Result unit) (st : Run),
    cells st = cells st2 -> (res', st) = (r, st') ->
    Forall (fun c => no_quote (cw_value c)) (cells st')
    /\ forall f0 rows0,
         @inr string ExcelFile f = inr f0 ->
         GetRows f0 (sheetName fl) = inr rows0 ->
         Forall (appended_cell (sheetName fl) (Z.of_nat (List.length rows0))
                               (maxCols_of rows0)) (cells st')).
  { intros res' st Hcs E. injection E as <- <-. rewrite Hcs, Hc. split.
    - eapply Forall_impl; [| exact Ha]. cbn. tauto.
    - intros f0 rows0 Ef Er. inversion Ef; subst f0.
      rewrite Erows in Er. inversion Er; subst rows0.
      eapply Forall_impl; [| exact Ha]. unfold appended_cell, nextRow_of.
      intros c (H1 & H2 & H3 & _). repeat split; try tauto; lia. }
  destruct res as [[] | msg | c]; try (now apply Hfin).
  destruct (SaveAs f (outputFile fl)) as [err |]; [now apply Hfin |].
  unfold modify at 1. unfold bind at 1. unfold print at 1, modify at 1.
  unfold bind at 1. unfold get at 1. unfold bind at 1.
  cbn [hasErrors set_stdout set_saved].
  destruct (hasErrors st2).
  - unfold get at 1. unfold bind at 1. unfold print, modify. now apply Hfin.
  - unfold ret. now apply Hfin.
Qed.

(** X3: whatever the end of the run, every cell it has written is on the
    target sheet, in a row below the rows the sheet had, and in a column
    from 1 to the width the sheet accepts: the rows the sheet had are
    never written to. *)
Theorem existing_rows_untouched (fl : Flags) (f : ExcelFile)
    (rows : list (list string))
    (Hbook : excelize_OpenFile env (templateFile fl) = inr f)
    (Hrows : GetRows f (sheetName fl) = inr rows) :
  Forall (fun c => cw_sheet c = sheetName fl
                   /\ Z.of_nat (List.length rows) < cw_row c
                   /\ 1 <= cw_col c <= maxCols_of rows)
         (cells (snd (main env fl start))).
Proof.
  destruct (main env fl start) as [r st'] eqn:E.
  exact (proj2 (main_cells fl r st' E) f rows Hbook Hrows).
Qed.

(** X4: whatever the end of the run, no cell it has written holds a
    quotation mark. *)
Theorem cells_hold_no_quote (fl : Flags) :
  Forall (fun c => no_quote (cw_value c)) (cells (snd (main env fl start))).
Proof.
  destruct (main env fl start) as [r st'] eqn:E.
  exact (proj1 (main_cells fl r st' E)).
Qed.

End CellsOfRun.

(** The run on the four lines and the sheet of two rows writes below
    row 2 and within the two columns. *)
Lemma existing_rows_untouched_witness :
  excelize_OpenFile example_env "book.xlsx"
  = inr {| GetSheetList := ["Data"; "Notes"];
           GetSheetIndex := fun _ => inr 0;
           GetRows := fun _ => inr two_rows;
           SaveAs := fun _ => None |}
  /\ Forall (fun c => cw_sheet c = "Data" /\ 2 < cw_row c /\ 1 <= cw_col c <= 2)
            (cells (snd (main example_env (flags_for "Data" "csv" 1) start))).
Proof.
  split; [reflexivity |].
  exact (existing_rows_untouched example_env (flags_for "Data" "csv" 1)
           {| GetSheetList := ["Data"; "Notes"];
              GetSheetIndex := fun _ => inr 0;
              GetRows := fun _ => inr two_rows;
              SaveAs := fun _ => None |} two_rows eq_refl eq_refl).
Defined.

(** ** The name of the log, case by case *)

Section LogNameCases.

Lemma list_ascii_of_string_app (a b : string) :
  list_ascii_of_string (a ++ b)
  = (list_ascii_of_string a ++ list_ascii_of_string b)%list.
Proof. induction a as [| c a IH]; cbn; [reflexivity | now rewrite IH]. Qed.

Lemma append_nil_r (s : string) : s ++ "" = s.
Proof. induction s as [| c s IH]; cbn; [reflexivity | now rewrite IH]. Qed.

Lemma append_assoc (a b c : string) : (a ++ b) ++ c = a ++ b ++ c.
Proof. induction a as [| x a IH]; cbn; [reflexivity | now rewrite IH]. Qed.

Lemma append_inv_head (a b c : string) : a ++ b = a ++ c -> b = c.
Proof.
  induction a as [| x a IH]; cbn; [auto |]. intros H. inversion H. auto.
Qed.

(** The scan steps over the bytes that are neither a dot nor a
    separator. *)
Lemma ext_scan_plain (a rest : list ascii) :
  forall acc,
    forallb (fun c => negb (Ascii.eqb c "/") && negb (Ascii.eqb c ".")) a = true ->
    ext_scan (a ++ rest) acc = ext_scan rest (rev a ++ acc).
Proof.
  induction a as [| c a IH]; intros acc H; [reflexivity |].
  cbn [forallb] in H. apply andb_prop in H as [Hc Ha].
  apply andb_prop in Hc as [H1 H2].
  cbn [app ext_scan rev].
  destruct (Ascii.eqb c "/"); [discriminate H1 |].
  destruct (Ascii.eqb c "."); [discriminate H2 |].
  rewrite IH by exact Ha. now rewrite <- app_assoc.
Qed.

Lemma forallb_rev {A} (p : A -> bool) (l : list A) :
  forallb p l = true -> forallb p (rev l) = true.
Proof.
  rewrite !forallb_forall. intros H x Hx. apply H. now apply in_rev.
Qed.

Lemma Ext_dot (stem ext : string) :
  plain ext -> Ext (stem ++ String "." ext) = String "." ext.
Proof.
  intros Hp. unfold Ext. rewrite list_ascii_of_string_app.
  cbn [list_ascii_of_string]. rewrite rev_app_distr. cbn [rev].
  rewrite <- app_assoc. cbn [app].
  rewrite ext_scan_plain by (apply forallb_rev; exact Hp).
  cbn [ext_scan]. rewrite rev_involutive, app_nil_r.
  cbn. now rewrite string_of_list_ascii_of_string.
Qed.

Lemma Ext_none (dir base : string) :
  plain base -> dir = "" \/ (exists d, dir = d ++ "/") ->
  Ext (dir ++ base) = "".
Proof.
  intros Hp Hd. unfold Ext. rewrite list_ascii_of_string_app, rev_app_distr.
  rewrite ext_scan_plain by (apply forallb_rev; exact Hp).
  destruct Hd as [-> | [d ->]]; [reflexivity |].
  rewrite list_ascii_of_string_app, rev_app_distr. reflexivity.
Qed.

(** X5: the name of the log is the output name with its last extension
    replaced by [-errors.log]; an output name whose last element has no
    dot gets [-errors.log] appended, a dot in a directory name
    notwithstanding. *)
Theorem log_name_by_extension :
  (forall stem ext : string,
      plain ext ->
      logFileName (stem ++ "." ++ ext) = stem ++ "-errors.log")
  /\ (forall dir base : string,
        plain base -> dir = "" \/ (exists d, dir = d ++ "/") ->
        logFileName (dir ++ base) = dir ++ base ++ "-errors.log").
Proof.
  split.
  - intros stem ext Hp. unfold logFileName.
    change ("." ++ ext) with (String "." ext).
    rewrite (Ext_dot stem ext Hp). now rewrite TrimSuffix_append.
  - intros dir base Hp Hd. unfold logFileName.
    rewrite (Ext_none dir base Hp Hd).
    rewrite <- (append_nil_r (dir ++ base)) at 1.
    rewrite TrimSuffix_append. apply append_assoc.
Qed.

(** X6: the log never has the name of the output file. *)
Theorem log_is_never_the_output (path : string) :
  String.eqb (logFileName path) path = false.
Proof.
  apply String.eqb_neq. intros E.
  destruct (logFileName_spec path) as (stem & H1 & H2 & H3).
  rewrite H2 in E. rewrite H1 in E.
  apply append_inv_head in E.
  destruct H3 as [H3 | (tail & H3 & _)]; rewrite H3 in E; discriminate E.
Qed.

End LogNameCases.

(** ** Runs that get to the saving of the workbook *)

Section Saving.

Variable env : Env.
Variable fl : Flags.
Variable delim : Z.
Variable file : Z -> list ReadResult.
Variable f : ExcelFile.
Variable sheetIndex : Z.
Variable rows : list (list string).

Hypothesis Hargs : List.length (os_Args env) <> 1%nat.
Hypothesis Hflags : sourceFile fl <> "" /\ templateFile fl <> ""
                    /\ outputFile fl <> "" /\ sheetName fl <> "".
Hypothesis Hdelim : delimiter_of (delimiter fl) = Some delim.
Hypothesis Hopen : os_Open env (sourceFile fl) = inr file.
Hypothesis Hlen : Z.of_nat (List.length (file delim)) < 2 ^ 63.
Hypothesis Hcreate : os_Create env (logFileName (outputFile fl)) = None.
Hypothesis Hbook : excelize_OpenFile env (templateFile fl) = inr f.
Hypothesis Hsheet : In (sheetName fl) (GetSheetList f).
Hypothesis Hindex : GetSheetIndex f (sheetName fl) = inr sheetIndex.
Hypothesis Hrows : GetRows f (sheetName fl) = inr rows.

(** The state of the run when it calls [SaveAs]. *)
Lemma main_to_save :
  let before :=
    after_append (logFileName (outputFile fl)) (sheetName fl) delim
      (maxCols_of rows) (nextRow_of rows) 0
      (accepted (startRow fl) (file delim))
      (set_active (Some sheetIndex)
         (after_read (logFileName (outputFile fl)) delim (file delim) start)) in
  main env fl start
  = match SaveAs f (outputFile fl) with
    | Some err =>
        (Fatal ("Failed to save updated Excel file: " ++ err), before)
    | None =>
        let saved_st := set_saved (Some (outputFile fl)) before in
        let line1 := "Data successfully written to file " ++ outputFile fl
                     ++ ", sheet " ++ sheetName fl ++ nl in
        (Ok tt,
         if hasErrors before
         then set_stdout
                [line1;
                 itoa (int_wrap (errorCount before + notAppendedCount before))
                 ++ " lines encountered errors. See the log at "
                 ++ logFileName (outputFile fl) ++ nl]
                saved_st
         else set_stdout [line1] saved_st)
    end.
Proof.
  destruct Hflags as (F1 & F2 & F3 & F4). unfold main.
  apply Nat.eqb_neq in Hargs. rewrite Hargs.
  apply String.eqb_neq in F1, F2, F3, F4. rewrite F1, F2, F3, F4. cbn [orb].
  unfold bind at 1. rewrite resolve_delimiter_state, Hdelim, Hopen.
  unfold bind at 1. change {| lineNumber := 0; csvData := [] |} with fresh.
  rewrite read_loop_start by auto. rewrite Hbook.
  replace (existsb (fun n => String.eqb n (sheetName fl)) (GetSheetList f))
    with true
    by (symmetry; apply existsb_exists; exists (sheetName fl);
        split; [exact Hsheet | apply String.eqb_refl]).
  cbn [negb]. rewrite Hindex. unfold modify at 1. unfold bind at 1.
  rewrite Hrows. unfold bind at 1. cbn [csvData].
  change 0 with (Z.of_nat 0) at 1.
  rewrite append_loop_closed by (left; right; exact Hcreate).
  cbn [Z.of_nat].
  destruct (SaveAs f (outputFile fl)) as [err |]; [reflexivity |].
  unfold modify at 1. unfold bind at 1. unfold print at 1, modify at 1.
  unfold bind at 1. unfold get at 1. unfold bind at 1.
  cbn [hasErrors set_stdout set_saved].
  match goal with |- context [if ?b then _ else _] => destruct b end;
    reflexivity.
Qed.

Lemma failures_bound :
  Z.of_nat (List.length (failed (file delim)))
  + Z.of_nat (List.length (filter (oversized (maxCols_of rows))
                                  (accepted (startRow fl) (file delim))))
  < 2 ^ 63.
Proof.
  pose proof (parsed_failed_length (file delim)) as Hpf.
  pose proof (filter_length_le (oversized (maxCols_of rows))
                (accepted (startRow fl) (file delim))) as Hf.
  unfold accepted in Hf at 2. rewrite length_map, length_skipn in Hf. lia.
Qed.

(** X7: a run in which every call succeeds ends normally, has saved the
    output, and prints the line that names the output file and the sheet;
    it prints a second line exactly when it has met a failure, and that
    line gives the number of unparseable lines plus the number of rejected
    records, and the name of the log. *)
Theorem run_summary (Hsave : SaveAs f (outputFile fl) = None) :
  let unparseable := failed (file delim) in
  let rejected := filter (oversized (maxCols_of rows))
                         (accepted (startRow fl) (file delim)) in
  let total := Z.of_nat (List.length unparseable)
               + Z.of_nat (List.length rejected) in
  exists st',
    main env fl start = (Ok tt, st')
    /\ saved st' = Some (outputFile fl)
    /\ active st' = Some sheetIndex
    /\ errorCount st' = Z.of_nat (List.length unparseable)
    /\ notAppendedCount st' = Z.of_nat (List.length rejected)
    /\ stdout st'
       = ("Data successfully written to file " ++ outputFile fl
          ++ ", sheet " ++ sheetName fl ++ nl)
         :: (if 0 <? total
             then [itoa total ++ " lines encountered errors. See the log at "
                   ++ logFileName (outputFile fl) ++ nl]
             else []).
Proof.
  intros unparseable rejected total.
  pose proof failures_bound as Hb. fold unparseable rejected total in Hb.
  eexists. split; [rewrite main_to_save, Hsave; reflexivity |].
  cbn [hasErrors after_append after_read set_active start errorCount
       notAppendedCount orb].
  fold unparseable rejected.
  rewrite !Z.add_0_l. fold total. rewrite int_wrap_small by lia.
  assert (Ht : nonempty unparseable || nonempty rejected = (0 <? total)).
  { subst total. destruct unparseable, rejected; cbn [nonempty orb List.length];
      symmetry; try (apply Z.ltb_lt; lia). reflexivity. }
  rewrite Ht. destruct (0 <? total); repeat split.
Qed.

(** X8: when saving the workbook fails the run ends with the fatal error
    that carries the error of [SaveAs]; nothing has been printed and no
    output is recorded as saved, while the cells have been written to the
    workbook in memory and the log of the failures met stays. *)
Theorem save_failure_is_fatal (err : string)
    (Hsave : SaveAs f (outputFile fl) = Some err) :
  exists st',
    main env fl start
    = (Fatal ("Failed to save updated Excel file: " ++ err), st')
    /\ saved st' = None /\ stdout st' = []
    /\ cells st'
       = placed (sheetName fl) (maxCols_of rows) (nextRow_of rows)
                (accepted (startRow fl) (file delim))
    /\ log_lines st'
       = (map (error_line delim) (failed (file delim))
          ++ map (rejected_line delim)
                 (filter (oversized (maxCols_of rows))
                         (accepted (startRow fl) (file delim))))%list.
Proof.
  eexists. split; [rewrite main_to_save, Hsave; reflexivity |].
  split; [reflexivity |]. split; [reflexivity |]. split; [reflexivity |].
  unfold log_lines. cbn [logFile after_append set_active].
  rewrite (logged_after fl start _
             (map (error_line delim) (failed (file delim))));
    [| cbn; now rewrite nonempty_map | reflexivity].
  rewrite (logged_start fl).
  destruct (map (error_line delim) (failed (file delim)) ++ _)%list; reflexivity.
Qed.

End Saving.

Section SavingExamples.

(** The run on the four lines and the sheet of two rows prints the two
    lines. *)
Lemma run_summary_witness :
  delimiter_of "csv" = Some 44
  /\ os_Create example_env (logFileName "out.xlsx") = None
  /\ exists st',
       main example_env (flags_for "Data" "csv" 1) start = (Ok tt, st')
       /\ stdout st'
          = ["Data successfully written to file out.xlsx, sheet Data" ++ nl;
             "1 lines encountered errors. See the log at out-errors.log" ++ nl].
Proof.
  split; [reflexivity |]. split; [reflexivity |].
  destruct (run_summary example_env (flags_for "Data" "csv" 1) 44
              (fun _ => four_lines)
              {| GetSheetList := ["Data"; "Notes"];
                 GetSheetIndex := fun _ => inr 0;
                 GetRows := fun _ => inr two_rows;
                 SaveAs := fun _ => None |} 0 two_rows)
    as (st' & H1 & _ & _ & _ & _ & H6);
    [discriminate | repeat split; discriminate | reflexivity | reflexivity
     | reflexivity | reflexivity | reflexivity | left; reflexivity
     | reflexivity | reflexivity | reflexivity |].
  exists st'. split; [exact H1 |]. rewrite H6. reflexivity.
Defined.

(** The same run when the workbook cannot be saved. *)
Lemma save_failure_is_fatal_witness :
  delimiter_of "csv" = Some 44
  /\ os_Create full_disk (logFileName "out.xlsx") = None
  /\ exists st',
       main full_disk (flags_for "Data" "csv" 1) start
       = (Fatal "Failed to save updated Excel file: no space left on device",
          st')
       /\ saved st' = None /\ stdout st' = []
       /\ log_lines st' = ["Error reading line: x" ++ nl].
Proof.
  split; [reflexivity |]. split; [reflexivity |].
  destruct (save_failure_is_fatal full_disk (flags_for "Data" "csv" 1) 44
              (fun _ => four_lines)
              {| GetSheetList := ["Data"; "Notes"];
                 GetSheetIndex := fun _ => inr 0;
                 GetRows := fun _ => inr two_rows;
                 SaveAs := fun _ => Some "no space left on device" |} 0 two_rows)
    with (err := "no space left on device")
    as (st' & H1 & H2 & H3 & _ & H5);
    [discriminate | repeat split; discriminate | reflexivity | reflexivity
     | reflexivity | reflexivity | reflexivity | left; reflexivity
     | reflexivity | reflexivity | reflexivity |].
  exists st'. split; [exact H1 |]. split; [exact H2 |]. split; [exact H3 |].
  rewrite H5. reflexivity.
Defined.

End SavingExamples.

(** ** Runs that end before the workbook is written to *)

Section EarlyEnds.

Variable env : Env.
Variable fl : Flags.

(** X9: a run without arguments prints the usage text and exits with
    status 0, also when required flags are missing; otherwise a run with
    an empty required flag prints the usage text and ends with the fatal
    error on the flags.  In both cases nothing has been read, created,
    written or saved. *)
Theorem startup_checks :
  let quiet (st : Run) :=
    hasErrors st = false /\ logFile st = None /\ cells st = []
    /\ saved st = None /\ stdout st = stdout (snd (Usage env start)) in
  (List.length (os_Args env) = 1%nat ->
   fst (main env fl start) = Exit 0 /\ quiet (snd (main env fl start)))
  /\ (List.length (os_Args env) <> 1%nat ->
      sourceFile fl = "" \/ templateFile fl = "" \/ outputFile fl = ""
      \/ sheetName fl = "" ->
      fst (main env fl start)
      = Fatal (nl ++ "Flags -i (input file), -t (Excel template), -s (Sheet name), and -o (Output file) must be specified")
      /\ quiet (snd (main env fl start))).
Proof.
  intros quiet. split.
  - intros Hargs. unfold main. apply Nat.eqb_eq in Hargs. rewrite Hargs.
    subst quiet. cbn. repeat split.
  - intros Hargs Hflag. unfold main. apply Nat.eqb_neq in Hargs. rewrite Hargs.
    replace (String.eqb (sourceFile fl) "" || String.eqb (templateFile fl) ""
             || String.eqb (outputFile fl) "" || String.eqb (sheetName fl) "")
      with true.
    + subst quiet. cbn. repeat split.
    + symmetry. rewrite !orb_true_iff, !String.eqb_eq. tauto.
Qed.

Hypothesis Hargs : List.length (os_Args env) <> 1%nat.
Hypothesis Hflags : sourceFile fl <> "" /\ templateFile fl <> ""
                    /\ outputFile fl <> "" /\ sheetName fl <> "".

(** X10: a delimiter flag that is not accepted ends the run with the
    fatal error that names it, whether or not the source can be opened;
    a source that cannot be opened ends the run with the fatal error that
    carries the error of [os.Open].  In both cases the run has changed
    nothing: no log, no output, nothing printed. *)
Theorem fatal_before_reading :
  (delimiter_of (delimiter fl) = None ->
   main env fl start = (Fatal ("Invalid delimiter: " ++ delimiter fl), start))
  /\ (forall (delim : Z) (err : string),
        delimiter_of (delimiter fl) = Some delim ->
        os_Open env (sourceFile fl) = inl err ->
        main env fl start
        = (Fatal ("Failed to open input file: " ++ err), start)).
Proof.
  destruct Hflags as (F1 & F2 & F3 & F4).
  apply Nat.eqb_neq in Hargs.
  apply String.eqb_neq in F1, F2, F3, F4.
  split.
  - intros Hd. unfold main. rewrite Hargs, F1, F2, F3, F4. cbn [orb].
    unfold bind at 1. now rewrite resolve_delimiter_state, Hd.
  - intros delim err Hd Ho. unfold main. rewrite Hargs, F1, F2, F3, F4. cbn [orb].
    unfold bind at 1. now rewrite resolve_delimiter_state, Hd, Ho.
Qed.

(** X11: when the workbook cannot be opened, or the index or the rows of
    the sheet cannot be had, the run ends with the fatal error that
    carries the error of the call.  The source has been read by then:
    the log holds its unparseable lines; no cell has been written and
    nothing has been saved or printed. *)
Theorem workbook_errors_are_fatal (delim : Z) (file : Z -> list ReadResult)
    (Hdelim : delimiter_of (delimiter fl) = Some delim)
    (Hopen : os_Open env (sourceFile fl) = inr file)
    (Hlen : Z.of_nat (List.length (file delim)) < 2 ^ 63)
    (Hcreate : os_Create env (logFileName (outputFile fl)) = None) :
  let read := after_read (logFileName (outputFile fl)) delim (file delim) start in
  (cells read = [] /\ saved read = None /\ stdout read = []
   /\ log_lines read = map (error_line delim) (failed (file delim)))
  /\ (forall err,
        excelize_OpenFile env (templateFile fl) = inl err ->
        main env fl start
        = (Fatal ("Failed to open Excel template: " ++ err), read))
  /\ (forall f err,
        excelize_OpenFile env (templateFile fl) = inr f ->
        In (sheetName fl) (GetSheetList f) ->
        GetSheetIndex f (sheetName fl) = inl err ->
        main env fl start = (Fatal ("Failed to get sheet index: " ++ err), read))
  /\ (forall f sheetIndex err,
        excelize_OpenFile env (templateFile fl) = inr f ->
        In (sheetName fl) (GetSheetList f) ->
        GetSheetIndex f (sheetName fl) = inr sheetIndex ->
        GetRows f (sheetName fl) = inl err ->
        main env fl start
        = (Fatal ("Failed to get rows from sheet: " ++ err),
           set_active (Some sheetIndex) read)).
Proof.
  intros read.
  destruct Hflags as (F1 & F2 & F3 & F4).
  apply Nat.eqb_neq in Hargs.
  apply String.eqb_neq in F1, F2, F3, F4.
  assert (Hexists : forall f, In (sheetName fl) (GetSheetList f) ->
            existsb (fun n => String.eqb n (sheetName fl)) (GetSheetList f) = true).
  { intros f Hin. apply existsb_exists. exists (sheetName fl).
    split; [exact Hin | apply String.eqb_refl]. }
  split; [| split; [| split]].
  - subst read. cbn. repeat split. unfold log_lines, logged. cbn.
    destruct (map (error_line delim) (failed (file delim))); reflexivity.
  - intros err Hb. unfold main. rewrite Hargs, F1, F2, F3, F4. cbn [orb].
    unfold bind at 1. rewrite resolve_delimiter_state, Hdelim, Hopen.
    unfold bind at 1. change {| lineNumber := 0; csvData := [] |} with fresh.
    rewrite read_loop_start by auto. now rewrite Hb.
  - intros f err Hb Hin Hi. unfold main. rewrite Hargs, F1, F2, F3, F4. cbn [orb].
    unfold bind at 1. rewrite resolve_delimiter_state, Hdelim, Hopen.
    unfold bind at 1. change {| lineNumber := 0; csvData := [] |} with fresh.
    rewrite read_loop_start by auto. rewrite Hb, (Hexists f Hin). cbn [negb].
    now rewrite Hi.
  - intros f sheetIndex err Hb Hin Hi Hr. unfold main.
    rewrite Hargs, F1, F2, F3, F4. cbn [orb].
    unfold bind at 1. rewrite resolve_delimiter_state, Hdelim, Hopen.
    unfold bind at 1. change {| lineNumber := 0; csvData := [] |} with fresh.
    rewrite read_loop_start by auto. rewrite Hb, (Hexists f Hin). cbn [negb].
    rewrite Hi. unfold modify at 1. unfold bind at 1. now rewrite Hr.
Qed.

End EarlyEnds.

(** ** When the log cannot be created *)

Section NoLog.

Variable env : Env.
Variable name : string.
Variable err : string.

Hypothesis Hfail : os_Create env name = Some err.

Lemma open_log_fails (st : Run) :
  hasErrors st = false ->
  open_log env name st
  = (Fatal ("Failed to create error log file: " ++ err), set_hasErrors true st).
Proof. intros Eh. unfold open_log. now rewrite Eh, Hfail. Qed.

Lemma read_loop_no_error (delim startRow : Z) (reader : list ReadResult) :
  forall (v : Ingest) (st : Run),
    failed reader = [] ->
    exists v', read_loop env name delim startRow reader v st = (Ok v', st).
Proof.
  induction reader as [| [record | record] rest IH]; intros v st Hf.
  - now exists v.
  - cbn [read_loop]. now apply IH.
  - discriminate Hf.
Qed.

(** X12: when the log cannot be created, the first unparseable line ends
    the run with the fatal error that carries the error of [os.Create]:
    the lines before it have been read, and nothing has been logged or
    counted.  In the same way the first record that is too wide ends the
    appending loop, after the cells of the records before it have been
    written. *)
Theorem log_creation_failure_is_fatal :
  (forall (delim startRow : Z) (pre post : list ReadResult)
          (bad : list string) (v : Ingest) (st : Run),
      hasErrors st = false -> failed pre = [] ->
      read_loop env name delim startRow (pre ++ ReadErr bad :: post) v st
      = (Fatal ("Failed to create error log file: " ++ err),
         set_hasErrors true st))
  /\ (forall (sheet : string) (delim maxCols nextRow : Z)
             (pre post : list (list string)) (row : list string) (st : Run),
        hasErrors st = false ->
        filter (oversized maxCols) pre = [] -> oversized maxCols row = true ->
        append_loop env name sheet delim maxCols nextRow 0 (pre ++ row :: post) st
        = (Fatal ("Failed to create error log file: " ++ err),
           set_hasErrors true
             (set_cells (cells st ++ placed sheet maxCols nextRow pre)%list st))).
Proof.
  split.
  - intros delim startRow pre post bad v st Eh Hpre.
    rewrite read_loop_app.
    destruct (read_loop_no_error delim startRow pre v st Hpre) as [v' Hv].
    rewrite (bind_Ok _ _ _ _ _ Hv). cbn [read_loop].
    now rewrite (bind_Fatal _ _ _ _ _ (open_log_fails st Eh)).
  - intros sheet delim maxCols nextRow pre post row st Eh Hpre Hrow.
    rewrite append_loop_app.
    change 0 with (Z.of_nat 0) at 1.
    rewrite (bind_Ok _ _ _ _ _
               (append_loop_closed env name sheet delim maxCols nextRow pre 0 st
                  (or_intror Hpre))).
    cbn [append_loop]. rewrite Z.gtb_ltb. fold (oversized maxCols row).
    rewrite Hrow.
    assert (Eh' : hasErrors (after_append name sheet delim maxCols nextRow 0
                               pre st) = false).
    { cbn. rewrite Hpre. cbn. now rewrite Eh. }
    rewrite (bind_Fatal _ _ _ _ _ (open_log_fails _ Eh')).
    f_equal. unfold after_append. rewrite Hpre.
    destruct st as [h l e n a c s o]. cbn in *. subst h.
    rewrite Z.add_0_r. reflexivity.
Qed.

End NoLog.

(** ** The start line, out of range *)

Section StartRange.

Variable env : Env.
Variable name : string.
Variable delim : Z.

(** X13: a start line below 1, down to the least [int] but one, accepts
    every parsed line like start line 1; a start line beyond the parsed
    lines accepts none, and so does the least [int], whose predecessor
    wraps around.  None of them is an error. *)
Theorem start_line_out_of_range (startRow : Z) (reader : list ReadResult)
    (Hcreate : os_Create env name = None)
    (Hlen : Z.of_nat (List.length reader) < 2 ^ 63) :
  exists v' st',
    read_loop env name delim startRow reader fresh start = (Ok v', st')
    /\ errorCount st' = Z.of_nat (List.length (failed reader))
    /\ (- 2 ^ 63 < startRow <= 1 ->
        csvData v' = map sanitize_record (parsed reader))
    /\ (Z.of_nat (List.length (parsed reader)) < startRow < 2 ^ 63 ->
        csvData v' = [])
    /\ (startRow = - 2 ^ 63 -> csvData v' = []).
Proof.
  pose proof (parsed_failed_length reader) as Hpf.
  eexists. eexists. split; [apply read_loop_start; auto |].
  cbn [csvData after_read errorCount start]. unfold accepted.
  split; [reflexivity |]. split; [| split].
  - intros Hs. rewrite int_wrap_small by lia.
    replace (Z.to_nat (startRow - 1)) with 0%nat by lia. reflexivity.
  - intros Hs. rewrite int_wrap_small by lia.
    rewrite skipn_all2 by lia. reflexivity.
  - intros ->. change (int_wrap (- 2 ^ 63 - 1)) with (2 ^ 63 - 1).
    rewrite skipn_all2 by lia. reflexivity.
Qed.

End StartRange.

(** ** The separator written to the log *)

Section Separator.

(** X14: the separator with which the log rejoins the fields of a line
    is the separator the delimiter flag stands for: the comma for [csv],
    the tab for [tab], and the token itself for any other accepted token,
    save a token of one byte that is not valid on its own. *)
Theorem separator_round_trip (token : string) (delim : Z)
    (Hdelim : delimiter_of token = Some delim) :
  (token = "csv" -> utf8.string_of_rune delim = ",")
  /\ (token = "tab" -> utf8.string_of_rune delim = tab)
  /\ (token <> "csv" -> token <> "tab" ->
      (forall b : Z, 0x80 <= b -> bytes token <> [b]) ->
      utf8.string_of_rune delim = token).
Proof.
  split; [| split].
  - intros ->. cbn in Hdelim. inversion Hdelim. reflexivity.
  - intros ->. cbn in Hdelim. inversion Hdelim. reflexivity.
  - intros Hcsv Htab Hbyte. unfold delimiter_of, resolve_delimiter in Hdelim.
    destruct (String.eqb_spec token "csv") as [E | _]; [contradiction |].
    destruct (String.eqb_spec token "tab") as [E | _]; [contradiction |].
    unfold utf8.RuneCountInString, utf8.DecodeRuneInString in Hdelim.
    destruct (Z.eqb_spec (utf8.RuneCount (bytes token)) 1) as [E | _];
      [| discriminate Hdelim].
    cbn in Hdelim. inversion Hdelim as [Hd]. clear Hdelim.
    apply RuneCount_one in E as [Hne Hs].
    destruct (decode_whole _ (bytes_are_bytes token) Hne Hs)
      as [[Hv He] | (b & Hb & Hge & _)].
    + unfold utf8.string_of_rune. rewrite Hv, <- He. apply of_bytes_bytes.
    + elim (Hbyte b Hge Hb).
Qed.

End Separator.

(** ** What sanitization keeps *)

Section SanitizeMore.

Lemma filter_length_lt_or_eq {A} (p : A -> bool) (l : list A) :
  filter p l = l \/ (List.length (filter p l) < List.length l)%nat.
Proof.
  induction l as [| a l IH]; [now left |]. cbn [filter].
  pose proof (filter_length_le p l).
  destruct (p a); cbn [List.length].
  - destruct IH as [-> | IH]; [now left | right; lia].
  - right. lia.
Qed.

(** X15: sanitizing a field removes its quotation marks and keeps its
    other bytes, in order; it leaves the field as it is exactly when the
    field has no quotation mark, and makes it shorter otherwise.
    Sanitizing a record keeps the number of its fields. *)
Theorem sanitize_keeps_the_rest (field : string) (record : list string) :
  list_ascii_of_string (sanitize field)
  = filter (fun c => negb (is_quote c)) (list_ascii_of_string field)
  /\ (sanitize field = field <-> no_quote field)
  /\ (sanitize field = field
      \/ (String.length (sanitize field) < String.length field)%nat)
  /\ List.length (sanitize_record record) = List.length record.
Proof.
  split; [apply sanitize_filter |]. split; [| split].
  - split; [| apply sanitize_fixed].
    intros E. unfold no_quote. rewrite <- E. apply sanitize_no_quote.
  - assert (Hl : forall s, String.length s
                           = List.length (list_ascii_of_string s)).
    { induction s as [| c s IH]; cbn; [reflexivity | now rewrite IH]. }
    rewrite !Hl, sanitize_filter.
    destruct (filter_length_lt_or_eq (fun c => negb (is_quote c))
                (list_ascii_of_string field)) as [E | Hlt]; [left | now right].
    rewrite <- (string_of_list_ascii_of_string (sanitize field)).
    rewrite sanitize_filter, E. apply string_of_list_ascii_of_string.
  - apply length_map.
Qed.

End SanitizeMore.

Section MoreExamples.

(** A delimiter flag of two characters. *)
Lemma fatal_before_reading_witness :
  List.length (os_Args example_env) <> 1%nat
  /\ delimiter_of "ab" = None
  /\ main example_env (flags_for "Data" "ab" 1) start
     = (Fatal "Invalid delimiter: ab", start).
Proof.
  split; [discriminate |]. split; [reflexivity |].
  apply (proj1 (fatal_before_reading example_env (flags_for "Data" "ab" 1)
                  ltac:(discriminate)
                  ltac:(repeat split; discriminate))).
  reflexivity.
Defined.

(** The four lines and a workbook that cannot be opened. *)
Lemma workbook_errors_are_fatal_witness :
  delimiter_of "csv" = Some 44
  /\ os_Create no_book (logFileName "out.xlsx") = None
  /\ excelize_OpenFile no_book "book.xlsx" = inl "zip: not a valid zip file"
  /\ exists st',
       main no_book (flags_for "Data" "csv" 1) start
       = (Fatal "Failed to open Excel template: zip: not a valid zip file", st')
       /\ log_lines st' = ["Error reading line: x" ++ nl].
Proof.
  split; [reflexivity |]. split; [reflexivity |]. split; [reflexivity |].
  destruct (workbook_errors_are_fatal no_book (flags_for "Data" "csv" 1)
              ltac:(discriminate) ltac:(repeat split; discriminate)
              44 (fun _ => four_lines) eq_refl eq_refl eq_refl eq_refl)
    as ((_ & _ & _ & Hlog) & Hbook & _).
  eexists. split; [exact (Hbook _ eq_refl) |]. rewrite Hlog. reflexivity.
Defined.

(** A parsed line and an unparseable one when the log cannot be
    created. *)
Lemma log_creation_failure_is_fatal_witness :
  os_Create read_only example_log = Some "permission denied"
  /\ read_loop read_only example_log 44 1
       ([ReadOk ["a"; "b"]] ++ ReadErr ["x"] :: [ReadOk ["c"; "d"]]) fresh start
     = (Fatal "Failed to create error log file: permission denied",
        set_hasErrors true start).
Proof.
  split; [reflexivity |].
  exact (proj1 (log_creation_failure_is_fatal read_only example_log
                  "permission denied" eq_refl)
           44 1 [ReadOk ["a"; "b"]] [ReadOk ["c"; "d"]] ["x"] fresh start
           eq_refl eq_refl).
Defined.

(** The four lines with start line 9. *)
Lemma start_line_out_of_range_witness :
  os_Create example_env example_log = None
  /\ Z.of_nat (List.length four_lines) < 2 ^ 63
  /\ exists v' st',
       read_loop example_env example_log 44 9 four_lines fresh start
       = (Ok v', st')
       /\ csvData v' = [] /\ errorCount st' = 1.
Proof.
  split; [reflexivity |]. split; [reflexivity |].
  destruct (start_line_out_of_range example_env example_log 44 9 four_lines
              eq_refl eq_refl) as (v' & st' & H1 & H2 & _ & H4 & _).
  exists v', st'. split; [exact H1 |].
  split; [exact (H4 (conj eq_refl eq_refl)) | exact H2].
Defined.

(** The euro sign as the delimiter flag. *)
Lemma separator_round_trip_witness :
  delimiter_of euro = Some 0x20AC
  /\ utf8.string_of_rune 0x20AC = euro.
Proof.
  split; [reflexivity |].
  apply (proj2 (proj2 (separator_round_trip euro 0x20AC eq_refl)));
    [discriminate | discriminate |].
  intros b _ E. discriminate E.
Defined.

End MoreExamples.

(** ** Rejection of a record that is too wide *)

Section Rejection.

Variable env : Env.
Variable name sheet : string.
Variable maxCols nextRow : Z.




End Rejection.

Section RejectionExamples.



End RejectionExamples.
